(** * Dual numbers for forward-mode automatic differentiation

    A shallow embedding of the [Dual] class of [dual_autodiff_x/dual.pyx]
    and the proofs of its specification.

    The class is untyped Python: the two fields of a [Dual] hold whatever
    numbers the caller passed, an [int] (unbounded) or a [float] (IEEE 754
    binary64).  The embedding keeps both: integers are [Z], floats are the
    kernel's primitive binary64 numbers, and the arithmetic operators are
    Python's, with their conversions and their exceptions. *)

From Stdlib Require Import ZArith Bool Floats Lia.
From stdpp Require Import base option gmap.

#[local] Open Scope Z_scope.

(** ** Exceptions and results *)

(** The exception classes the code can raise, directly ([raise ...]) or
    through a Python operator. *)
Inductive exn : Type :=
  | TypeError
  | ZeroDivisionError
  | OverflowError
  | ValueError.

(** The outcome of evaluating an expression: a value, an exception, or
    [Unmodelled] when the evaluation leaves the fragment embedded here (a
    [complex] result of [**], or an attribute read through a reference that
    the store does not hold, which Python cannot produce). *)
Inductive result (A : Type) : Type :=
  | Ok (a : A)
  | Raise (e : exn)
  | Unmodelled.

Arguments Ok {A} a.
Arguments Raise {A} e.
Arguments Unmodelled {A}.

#[global] Instance result_ret : MRet result := fun A a => Ok a.

#[global] Instance result_bind : MBind result := fun A B f m =>
  match m with
  | Ok a => f a
  | Raise e => Raise e
  | Unmodelled => Unmodelled
  end.

#[global] Instance result_fmap : FMap result := fun A B f m =>
  match m with
  | Ok a => Ok (f a)
  | Raise e => Raise e
  | Unmodelled => Unmodelled
  end.

(** ** Python numbers *)

Inductive scalar : Type :=
  | SInt (z : Z)
  | SFloat (f : float).

(** [float(z)]: the nearest binary64 number, ties to even;
    [OverflowError] ("int too large to convert to float") when that is
    out of range. *)
Definition float_of_Z (z : Z) : result float :=
  match binary_normalize prec emax z 0 false with
  | S754_infinity _ => Raise OverflowError
  | sf => Ok (SF2Prim sf)
  end.

(** The conversion every float operator applies to its operands. *)
Definition to_float (s : scalar) : result float :=
  match s with
  | SInt z => float_of_Z z
  | SFloat f => Ok f
  end.

(** [x + y], [x - y], [x * y]: exact on two ints, otherwise the binary64
    operation on the converted operands (which never raises by itself). *)
Definition float_binop (op : float -> float -> float) (x y : scalar) : result scalar :=
  a ← to_float x; b ← to_float y; Ok (SFloat (op a b)).

Definition py_add (x y : scalar) : result scalar :=
  match x, y with
  | SInt a, SInt b => Ok (SInt (a + b))
  | _, _ => float_binop PrimFloat.add x y
  end.

Definition py_sub (x y : scalar) : result scalar :=
  match x, y with
  | SInt a, SInt b => Ok (SInt (a - b))
  | _, _ => float_binop PrimFloat.sub x y
  end.

Definition py_mul (x y : scalar) : result scalar :=
  match x, y with
  | SInt a, SInt b => Ok (SInt (a * b))
  | _, _ => float_binop PrimFloat.mul x y
  end.

(** Unary minus. *)
Definition py_neg (x : scalar) : scalar :=
  match x with
  | SInt a => SInt (- a)
  | SFloat f => SFloat (- f)%float
  end.

(** [a / b] on two ints, [b] not zero: the correctly rounded quotient, with
    the sign of a zero quotient taken from the operands;
    [OverflowError] ("integer division result too large for a float"). *)
Definition long_true_divide (a b : Z) : result float :=
  let s := xorb (a <? 0) (b <? 0) in
  match Z.abs a, Z.abs b with
  | Zpos ma, Zpos mb =>
      match SFdiv prec emax (S754_finite s ma 0) (S754_finite false mb 0) with
      | S754_infinity _ => Raise OverflowError
      | sf => Ok (SF2Prim sf)
      end
  | _, _ => Ok (if s then neg_zero else zero)
  end.

Definition scalar_is_zero (s : scalar) : bool :=
  match s with
  | SInt z => z =? 0
  | SFloat f => (f =? 0)%float
  end.

(** [x / y].  Python raises [ZeroDivisionError] on a zero divisor, also for
    floats.  With a float operand both operands are converted first, then
    the converted divisor is tested against [0.0]. *)
Definition py_truediv (x y : scalar) : result scalar :=
  match x, y with
  | SInt a, SInt b =>
      if b =? 0 then Raise ZeroDivisionError
      else SFloat <$> long_true_divide a b
  | _, _ =>
      a ← to_float x; b ← to_float y;
      if (b =? 0)%float then Raise ZeroDivisionError
      else Ok (SFloat (a / b)%float)
  end.

(** What [float(z)] is for an int [z] other than 0, before the range
    check: a finite number of the sign of [z] with a canonical mantissa,
    or the infinity of that sign. *)
Definition rounds_to (s : bool) (r : spec_float) : Prop :=
  match r with
  | S754_finite s' m e => s' = s /\ bounded prec emax m e = true
  | S754_infinity s' => s' = s
  | _ => False
  end.

(** *** Comparisons

    Two ints and two floats compare as such (IEEE 754 for floats: a NaN is
    unordered and unequal to everything, [0.0 == -0.0]).  An int and a
    float compare by their exact mathematical values. *)
Definition float_cmp_Z (f : float) (z : Z) : option comparison :=
  match Prim2SF f with
  | S754_nan => None
  | S754_zero _ => Some (0 ?= z)
  | S754_infinity s => Some (if s then Lt else Gt)
  | S754_finite s m e =>
      let v := cond_Zopp s (Zpos m) in
      Some (if 0 <=? e then v * 2 ^ e ?= z else v ?= z * 2 ^ (- e))
  end.

Definition py_eq (x y : scalar) : bool :=
  match x, y with
  | SInt a, SInt b => a =? b
  | SFloat f, SFloat g => (f =? g)%float
  | SFloat f, SInt b | SInt b, SFloat f =>
      match float_cmp_Z f b with Some Eq => true | _ => false end
  end.

Definition py_le (x y : scalar) : bool :=
  match x, y with
  | SInt a, SInt b => a <=? b
  | SFloat f, SFloat g => (f <=? g)%float
  | SFloat f, SInt b =>
      match float_cmp_Z f b with Some (Lt | Eq) => true | _ => false end
  | SInt a, SFloat g =>
      match float_cmp_Z g a with Some (Gt | Eq) => true | _ => false end
  end.

Definition py_lt (x y : scalar) : bool :=
  match x, y with
  | SInt a, SInt b => a <? b
  | SFloat f, SFloat g => (f <? g)%float
  | SFloat f, SInt b =>
      match float_cmp_Z f b with Some Lt => true | _ => false end
  | SInt a, SFloat g =>
      match float_cmp_Z g a with Some Gt => true | _ => false end
  end.

(** ** The class [Dual] *)

(** [__init__]: the two attributes; no validation. *)
Record Dual : Type := mkDual { real : scalar; dual : scalar }.

(** What a method can receive as [other] or [n]: a number or a dual
    number. [isinstance(other, Dual)] is the match on [VDual]. *)
Inductive value : Type :=
  | VNum (s : scalar)
  | VDual (d : Dual).

(** *** The store, for the in-place operators

    [+=], [*=], [/=] and [**=] assign to the attributes of the receiver.
    Dual numbers live in a store; a receiver is a location, and an argument
    is a number or a location, which may be the receiver's own
    ([x *= x]). *)
Definition loc := positive.

Abbreviation heap := (gmap loc Dual).

Inductive arg : Type :=
  | ANum (s : scalar)
  | ARef (l : loc).

(** What an argument denotes in a store. *)
Definition fetch (h : heap) (a : arg) : option value :=
  match a with
  | ANum s => Some (VNum s)
  | ARef l => VDual <$> h !! l
  end.

(** A statement: it runs in a store and leaves a store, also when it
    raises (the assignments made before the exception stay). *)
Definition M (A : Type) : Type := heap -> result A * heap.

Definition retM {A} (a : A) : M A := fun h => (Ok a, h).

Definition bindM {A B} (m : M A) (k : A -> M B) : M B := fun h =>
  match m h with
  | (Ok a, h') => k a h'
  | (Raise e, h') => (Raise e, h')
  | (Unmodelled, h') => (Unmodelled, h')
  end.

Definition eval {A} (r : result A) : M A := fun h => (r, h).

Definition get_real (l : loc) : M scalar := fun h =>
  match h !! l with
  | Some d => (Ok (real d), h)
  | None => (Unmodelled, h)
  end.

Definition get_dual (l : loc) : M scalar := fun h =>
  match h !! l with
  | Some d => (Ok (dual d), h)
  | None => (Unmodelled, h)
  end.

Definition set_real (l : loc) (v : scalar) : M unit := fun h =>
  match h !! l with
  | Some d => (Ok tt, <[l := mkDual v (dual d)]> h)
  | None => (Unmodelled, h)
  end.

Definition set_dual (l : loc) (v : scalar) : M unit := fun h =>
  match h !! l with
  | Some d => (Ok tt, <[l := mkDual (real d) v]> h)
  | None => (Unmodelled, h)
  end.

(** A statement that leaves every object other than [self] as it was,
    whatever its outcome. *)
Definition only_writes {A} (self : loc) (m : M A) : Prop :=
  forall (h : heap) (l : loc), l <> self -> (m h).2 !! l = h !! l.

Notation "x <- c ;; k" := (bindM c (fun x => k))
  (at level 100, c at next level, right associativity, only parsing).
Notation "c ;;; k" := (bindM c (fun _ => k))
  (at level 100, right associativity, only parsing).

(** ** Exponentiation *)

(** The integer a float holds, when it is finite and integral. *)
Definition float_integer (f : float) : option Z :=
  match Prim2SF f with
  | S754_zero _ => Some 0
  | S754_finite s m e =>
      if 0 <=? e then Some (cond_Zopp s (Zpos m * 2 ^ e))
      else if Zpos m mod 2 ^ (- e) =? 0 then Some (cond_Zopp s (Zpos m / 2 ^ (- e)))
      else None
  | _ => None
  end.

(** [fmod(fabs(w), 2.0) == 1.0]. *)
Definition is_odd_integer (w : float) : bool :=
  match float_integer w with
  | Some z => Z.odd z
  | None => false
  end.

(** A reference for the C library's [pow] where its value is determined:
    an integral exponent and a finite positive base.  It is the exact
    power, rounded once to nearest (ties to even); no other argument is
    covered ([nan] stands there).  The examples below run with it. *)
Definition pow_integral (x y : float) : float :=
  match Prim2SF x, float_integer y with
  | S754_finite false m e, Some (Zpos n) =>
      SF2Prim (binary_normalize prec emax (Zpos (m ^ n)) (e * Zpos n) false)
  | S754_finite false m e, Some (Zneg n) =>
      SF2Prim (SFdiv prec emax (S754_finite false 1 0)
                 (S754_finite false (m ^ n) (e * Zpos n)))
  | _, _ => nan
  end.

(** ** The [math] module

    [math.sin], [math.cos], [math.tan] and [math.exp] call the C library's
    function of that name through one wrapper.  A C function gives a value
    and may set [errno]. *)
Inductive c_errno : Type :=
  | ENone
  | EDOM
  | ERANGE
  | EOther.

(** The wrapper's reading of [errno] on a finite result: a range error on
    a result below [1.5] is an underflow, which is no error. *)
Definition is_error (errno : c_errno) (r : float) : option exn :=
  match errno with
  | ENone => None
  | EDOM => Some ValueError
  | ERANGE => if (abs r <? 1.5)%float then None else Some OverflowError
  | EOther => Some ValueError
  end.

(** The wrapper: the argument is converted to a float; a NaN from an
    argument that is none is a [ValueError]; an infinity from a finite
    argument is an [OverflowError] where the function can overflow
    ([exp]), a [ValueError] otherwise. *)
Definition math_1 (func : float -> float * c_errno) (can_overflow : bool)
    (x : scalar) : result float :=
  v ← to_float x;
  let (r, errno) := func v in
  if is_nan r && negb (is_nan v) then Raise ValueError
  else if is_infinity r && is_finite v then
    Raise (if can_overflow then OverflowError else ValueError)
  else if is_finite r then
    match is_error errno r with
    | Some e => Raise e
    | None => Ok r
    end
  else Ok r.

(** The float that the literal [1e-9] denotes. *)
Definition float_1e_9 : float := 0x1.12e0be826d695p-30%float.

(** [math.isclose(a, b, rel_tol=..., abs_tol=...)] on floats. *)
Definition isclose (a b rel_tol abs_tol : float) : result bool :=
  if (rel_tol <? 0)%float || (abs_tol <? 0)%float then Raise ValueError
  else if (a =? b)%float then Ok true
  else if is_infinity a || is_infinity b then Ok false
  else
    let diff := abs (b - a) in
    Ok ((diff <=? abs (rel_tol * b))%float
        || (diff <=? abs (rel_tol * a))%float
        || (diff <=? abs_tol)%float).

(** References for the C library at a zero argument, where C fixes the
    value: [sin] and [tan] return the argument, [cos] and [exp] return 1.
    No other argument is covered (a NaN with [EDOM] stands there).  The
    examples below run with them. *)
Definition odd_at_zero (x : float) : float * c_errno :=
  if (x =? 0)%float then (x, ENone) else (nan, EDOM).

Definition one_at_zero (x : float) : float * c_errno :=
  if (x =? 0)%float then (1%float, ENone) else (nan, EDOM).

(** The cosine at the float nearest pi/2, [0x1.921fb54442d18p+0]: the
    correctly rounded value, about [6.1e-17]. *)
Definition cos_at_half_pi (x : float) : float * c_errno :=
  if (x =? 0x1.921fb54442d18p+0)%float
  then (0x1.1a62633145c07p-54%float, ENone)
  else (nan, EDOM).

Section Libm.

(** The C library's [pow], which Python's float [**] calls on the operands
    its own case analysis leaves: a finite positive base other than [1.0]
    and a finite non-zero exponent.  Its results are not fixed to the last
    bit by any standard, so it stays a parameter. *)
Variable libm_pow : float -> float -> float.

(** [math.log] on a number that is not [<= 0]: a positive int or float, or
    a NaN.  On these it returns a float and never raises. *)
Variable math_log : scalar -> float.

(** The C library's [sin], [cos], [tan] and [exp]. *)
Variables libm_sin libm_cos libm_tan libm_exp : float -> float * c_errno.

(** Python's [v ** w] on two floats.  The special cases are decided before
    the C library is called; of the library's range errors an overflow
    (an infinite result) gives [OverflowError] and an underflow to zero is
    returned as it is.  A negative base with a fractional exponent gives
    a [complex], which is not embedded. *)
Definition float_pow (v w : float) : result scalar :=
  if (w =? 0)%float then Ok (SFloat 1)
  else if is_nan v then Ok (SFloat v)
  else if is_nan w then Ok (SFloat (if (v =? 1)%float then 1%float else w))
  else if is_infinity w then
    let av := abs v in
    if (av =? 1)%float then Ok (SFloat 1)
    else if Bool.eqb (0 <? w)%float (1 <? av)%float then Ok (SFloat (abs w))
    else Ok (SFloat 0)
  else if is_infinity v then
    let odd := is_odd_integer w in
    if (0 <? w)%float then Ok (SFloat (if odd then v else abs v))
    else Ok (SFloat (if odd && (v <? 0)%float then neg_zero else zero))
  else if (v =? 0)%float then
    if (w <? 0)%float then Raise ZeroDivisionError
    else Ok (SFloat (if is_odd_integer w then v else 0%float))
  else
    match (v <? 0)%float, float_integer w with
    | true, None => Unmodelled
    | neg, _ =>
        let av := if neg then (- v)%float else v in
        let negate_result := neg && is_odd_integer w in
        if (av =? 1)%float then Ok (SFloat (if negate_result then (-1)%float else 1%float))
        else
          let x := libm_pow av w in
          if is_infinity x then Raise OverflowError
          else Ok (SFloat (if negate_result then (- x)%float else x))
    end.

(** [x ** y].  Two ints with a non-negative exponent give the exact int;
    every other pair is converted to floats. *)
Definition py_pow (x y : scalar) : result scalar :=
  match x, y with
  | SInt a, SInt b =>
      if 0 <=? b then Ok (SInt (a ^ b))
      else v ← float_of_Z a; w ← float_of_Z b; float_pow v w
  | _, _ => v ← to_float x; w ← to_float y; float_pow v w
  end.

(** ** The methods of [Dual] *)

(** [Dual(real, dual=0.0)]: the dual part is the float [0.0] when it is
    not given. *)
Definition __init__ (real : scalar) (dual : option scalar) : Dual :=
  mkDual real (default (SFloat 0) dual).

(** *** Addition *)

Definition __add__ (self : Dual) (other : value) : result Dual :=
  match other with
  | VDual o =>
      r ← py_add (real self) (real o);
      d ← py_add (dual self) (dual o);
      Ok (mkDual r d)
  | VNum s =>
      r ← py_add (real self) s;
      Ok (mkDual r (dual self))
  end.

Definition __radd__ (self : Dual) (other : value) : result Dual :=
  __add__ self other.

Definition __iadd__ (self : loc) (other : arg) : M arg :=
  match other with
  | ARef o =>
      a <- get_real self ;; c <- get_real o ;;
      r <- eval (py_add a c) ;;
      set_real self r ;;;
      b <- get_dual self ;; d <- get_dual o ;;
      t <- eval (py_add b d) ;;
      set_dual self t ;;;
      retM (ARef self)
  | ANum s =>
      a <- get_real self ;;
      r <- eval (py_add a s) ;;
      set_real self r ;;;
      retM (ARef self)
  end.

(** *** Subtraction and negation *)

Definition __sub__ (self : Dual) (other : value) : result Dual :=
  match other with
  | VDual o =>
      r ← py_sub (real self) (real o);
      d ← py_sub (dual self) (dual o);
      Ok (mkDual r d)
  | VNum s =>
      r ← py_sub (real self) s;
      Ok (mkDual r (dual self))
  end.

(** [other - self] for a number [other]. *)
Definition __rsub__ (self : Dual) (other : scalar) : result Dual :=
  r ← py_sub other (real self);
  Ok (mkDual r (py_neg (dual self))).

Definition __neg__ (self : Dual) : Dual :=
  mkDual (py_neg (real self)) (py_neg (dual self)).

Definition __isub__ (self : loc) (other : arg) : M arg :=
  match other with
  | ARef o =>
      a <- get_real self ;; c <- get_real o ;;
      r <- eval (py_sub a c) ;;
      set_real self r ;;;
      b <- get_dual self ;; d <- get_dual o ;;
      t <- eval (py_sub b d) ;;
      set_dual self t ;;;
      retM (ARef self)
  | ANum s =>
      a <- get_real self ;;
      r <- eval (py_sub a s) ;;
      set_real self r ;;;
      retM (ARef self)
  end.

(** *** Multiplication *)

Definition __mul__ (self : Dual) (other : value) : result Dual :=
  match other with
  | VDual o =>
      r ← py_mul (real self) (real o);
      t1 ← py_mul (real self) (dual o);
      t2 ← py_mul (dual self) (real o);
      d ← py_add t1 t2;
      Ok (mkDual r d)
  | VNum s =>
      r ← py_mul (real self) s;
      d ← py_mul (dual self) s;
      Ok (mkDual r d)
  end.

Definition __rmul__ (self : Dual) (other : value) : result Dual :=
  __mul__ self other.

Definition __imul__ (self : loc) (other : arg) : M arg :=
  match other with
  | ARef o =>
      a <- get_real self ;; c <- get_real o ;;
      new_real <- eval (py_mul a c) ;;
      a' <- get_real self ;; d <- get_dual o ;;
      t1 <- eval (py_mul a' d) ;;
      b <- get_dual self ;; c' <- get_real o ;;
      t2 <- eval (py_mul b c') ;;
      new_dual <- eval (py_add t1 t2) ;;
      set_real self new_real ;;;
      set_dual self new_dual ;;;
      retM (ARef self)
  | ANum s =>
      a <- get_real self ;;
      r <- eval (py_mul a s) ;;
      set_real self r ;;;
      b <- get_dual self ;;
      d <- eval (py_mul b s) ;;
      set_dual self d ;;;
      retM (ARef self)
  end.

(** *** Division *)

Definition __truediv__ (self : Dual) (other : value) : result Dual :=
  match other with
  | VDual o =>
      if py_eq (real o) (SInt 0) then Raise ZeroDivisionError
      else
        r ← py_truediv (real self) (real o);
        t1 ← py_mul (dual self) (real o);
        t2 ← py_mul (real self) (dual o);
        n ← py_sub t1 t2;
        sq ← py_pow (real o) (SInt 2);
        d ← py_truediv n sq;
        Ok (mkDual r d)
  | VNum s =>
      if py_eq s (SInt 0) then Raise ZeroDivisionError
      else
        r ← py_truediv (real self) s;
        d ← py_truediv (dual self) s;
        Ok (mkDual r d)
  end.

(** [other / self] for a number [other]. *)
Definition __rtruediv__ (self : Dual) (other : scalar) : result Dual :=
  if py_eq (real self) (SInt 0) then Raise ZeroDivisionError
  else
    r ← py_truediv other (real self);
    t ← py_mul (py_neg other) (dual self);
    sq ← py_pow (real self) (SInt 2);
    d ← py_truediv t sq;
    Ok (mkDual r d).

Definition __itruediv__ (self : loc) (other : arg) : M arg :=
  match other with
  | ARef o =>
      c <- get_real o ;;
      if py_eq c (SInt 0) then eval (Raise ZeroDivisionError)
      else
        a <- get_real self ;; c1 <- get_real o ;;
        real_div <- eval (py_truediv a c1) ;;
        b <- get_dual self ;; c2 <- get_real o ;;
        t1 <- eval (py_mul b c2) ;;
        a' <- get_real self ;; d <- get_dual o ;;
        t2 <- eval (py_mul a' d) ;;
        n <- eval (py_sub t1 t2) ;;
        c3 <- get_real o ;;
        sq <- eval (py_pow c3 (SInt 2)) ;;
        dual_div <- eval (py_truediv n sq) ;;
        set_real self real_div ;;;
        set_dual self dual_div ;;;
        retM (ARef self)
  | ANum s =>
      if py_eq s (SInt 0) then eval (Raise ZeroDivisionError)
      else
        a <- get_real self ;;
        r <- eval (py_truediv a s) ;;
        set_real self r ;;;
        b <- get_dual self ;;
        d <- eval (py_truediv b s) ;;
        set_dual self d ;;;
        retM (ARef self)
  end.

Definition inverse (self : Dual) : result Dual :=
  if py_eq (real self) (SInt 0) then Raise ZeroDivisionError
  else
    real_inv ← py_truediv (SInt 1) (real self);
    sq ← py_pow (real self) (SInt 2);
    dual_inv ← py_truediv (py_neg (dual self)) sq;
    Ok (mkDual real_inv dual_inv).

(** *** Sine, cosine, tangent and exponential *)

Definition math_sin : scalar -> result float := math_1 libm_sin false.
Definition math_cos : scalar -> result float := math_1 libm_cos false.
Definition math_tan : scalar -> result float := math_1 libm_tan false.
Definition math_exp : scalar -> result float := math_1 libm_exp true.

Definition sin (self : Dual) : result Dual :=
  s ← math_sin (real self);
  c ← math_cos (real self);
  d ← py_mul (dual self) (SFloat c);
  Ok (mkDual (SFloat s) d).

Definition cos (self : Dual) : result Dual :=
  c ← math_cos (real self);
  s ← math_sin (real self);
  d ← py_mul (py_neg (dual self)) (SFloat s);
  Ok (mkDual (SFloat c) d).

(** [math.isclose(math.cos(self.real), 0, abs_tol=1e-9)] has the default
    relative tolerance [1e-09]; the dual part is
    [self.dual * (1 / (math.cos(self.real) ** 2))]. *)
Definition tan (self : Dual) : result Dual :=
  c ← math_cos (real self);
  close ← isclose c 0 float_1e_9 float_1e_9;
  if close : bool then Raise ZeroDivisionError
  else
    t ← math_tan (real self);
    c' ← math_cos (real self);
    sq ← py_pow (SFloat c') (SInt 2);
    q ← py_truediv (SInt 1) sq;
    d ← py_mul (dual self) q;
    Ok (mkDual (SFloat t) d).

Definition exp (self : Dual) : result Dual :=
  r ← math_exp (real self);
  r' ← math_exp (real self);
  d ← py_mul (dual self) (SFloat r');
  Ok (mkDual (SFloat r) d).

(** *** Logarithm and power *)

Definition log (self : Dual) : result Dual :=
  if py_le (real self) (SInt 0) then Raise ZeroDivisionError
  else
    let l := math_log (real self) in
    d ← py_truediv (dual self) (real self);
    Ok (mkDual (SFloat l) d).

(** [isinstance(n, int)] holds of the ints alone. *)
Definition pow (self : Dual) (n : value) : result Dual :=
  match n with
  | VNum (SInt z) =>
      if py_eq (real self) (SInt 0) && py_lt (SInt z) (SInt 0)
      then Raise ZeroDivisionError
      else
        real_part ← py_pow (real self) (SInt z);
        e ← py_sub (SInt z) (SInt 1);
        p ← py_pow (real self) e;
        np ← py_mul (SInt z) p;
        dual_part ← py_mul np (dual self);
        Ok (mkDual real_part dual_part)
  | _ => Raise TypeError
  end.

Definition __ipow__ (self : loc) (other : arg) : M arg :=
  match other with
  | ARef _ => eval (Raise TypeError)
  | ANum s =>
      a <- get_real self ;;
      real_pow <- eval (py_pow a s) ;;
      a' <- get_real self ;;
      e <- eval (py_sub s (SInt 1)) ;;
      p <- eval (py_pow a' e) ;;
      np <- eval (py_mul s p) ;;
      b <- get_dual self ;;
      dual_pow <- eval (py_mul np b) ;;
      set_real self real_pow ;;;
      set_dual self dual_pow ;;;
      retM (ARef self)
  end.

(** *** Equality *)

Definition __eq__ (self : Dual) (other : value) : bool :=
  match other with
  | VDual o => py_eq (real self) (real o) && py_eq (dual self) (dual o)
  | VNum s => py_eq (real self) s && py_eq (dual self) (SInt 0)
  end.

(** ** Expressions

    How Python evaluates [x + y], [x * y] and [x / y]: the left operand's
    method when it is a dual number; for a number on the left and a dual
    number on the right the number's own method declines, and the dual
    number's reflected method runs. *)
Definition binop_add (x y : value) : result value :=
  match x, y with
  | VDual d, _ => VDual <$> __add__ d y
  | VNum _, VDual d => VDual <$> __radd__ d x
  | VNum a, VNum b => VNum <$> py_add a b
  end.

Definition binop_mul (x y : value) : result value :=
  match x, y with
  | VDual d, _ => VDual <$> __mul__ d y
  | VNum _, VDual d => VDual <$> __rmul__ d x
  | VNum a, VNum b => VNum <$> py_mul a b
  end.


Definition binop_truediv (x y : value) : result value :=
  match x, y with
  | VDual d, _ => VDual <$> __truediv__ d y
  | VNum a, VDual d => VDual <$> __rtruediv__ d a
  | VNum a, VNum b => VNum <$> py_truediv a b
  end.

(** The documentation's example, [y = x * x + 3 * x + 5]. *)
Definition f (x : value) : result value :=
  xx ← binop_mul x x;
  tx ← binop_mul (VNum (SInt 3)) x;
  s ← binop_add xx tx;
  binop_add s (VNum (SInt 5)).

End Libm.

(** The store of the examples: [x = Dual(2, 1)] at 1, [y = Dual(3, 2)]
    at 2. *)
Definition store_xy : heap :=
  {[ 1%positive := mkDual (SInt 2) (SInt 1); 2%positive := mkDual (SInt 3) (SInt 2) ]}.

(** * Properties *)

(** ** The number operators *)

Lemma Prim2SF_zero : Prim2SF 0%float = S754_zero false.
Proof. reflexivity. Qed.

(** *** Converting an int to a float

    [float(z)] rounds [z] to 53 significant bits.  The result is a float
    in canonical form, so that it is zero only for [z = 0] and has the
    sign of [z]. *)
Lemma digits2_pos_size (m : positive) : digits2_pos m = Pos.size m.
Proof. induction m; simpl; congruence. Qed.

(** [2^(d-1) <= m < 2^d] for [d] the number of binary digits of [m]. *)
Lemma digits2_pos_bounds (m : positive) :
  2 ^ (Z.pos (digits2_pos m) - 1) <= Z.pos m < 2 ^ Z.pos (digits2_pos m).
Proof.
  rewrite digits2_pos_size.
  pose proof (Pos.size_gt m) as Hgt. pose proof (Pos.size_le m) as Hle.
  split.
  - apply Pos2Z.pos_le_pos in Hle. rewrite Pos2Z.inj_pow in Hle.
    change (Z.pos m~0) with (2 * Z.pos m) in Hle.
    replace (Z.pos (Pos.size m)) with (Z.succ (Z.pos (Pos.size m) - 1)) in Hle by lia.
    rewrite Z.pow_succ_r in Hle by lia. lia.
  - apply Pos2Z.pos_lt_pos in Hgt. now rewrite Pos2Z.inj_pow in Hgt.
Qed.

Lemma digits2_pos_unique (m : positive) (d : Z) :
  2 ^ (d - 1) <= Z.pos m < 2 ^ d -> Z.pos (digits2_pos m) = d.
Proof.
  intros [Hlo Hhi]. pose proof (digits2_pos_bounds m) as [Hlo' Hhi'].
  assert (0 < d).
  { destruct (Z.lt_trichotomy d 0) as [Hd | [-> | Hd]]; [| simpl in Hhi; lia | lia].
    rewrite Z.pow_neg_r in Hhi by lia. lia. }
  destruct (Z.lt_trichotomy (Z.pos (digits2_pos m)) d) as [Hlt | [Heq | Hgt]]; [| exact Heq |].
  - exfalso. assert (2 ^ Z.pos (digits2_pos m) <= 2 ^ (d - 1)) by (apply Z.pow_le_mono_r; lia). lia.
  - exfalso. assert (2 ^ d <= 2 ^ (Z.pos (digits2_pos m) - 1)) by (apply Z.pow_le_mono_r; lia). lia.
Qed.

Lemma shr_1_m (mrs : shr_record) :
  0 <= shr_m mrs -> shr_m (shr_1 mrs) = shr_m mrs / 2.
Proof.
  destruct mrs as [m r s]. cbn [shr_m]. intros Hm.
  destruct m as [| p | p]; [reflexivity | | lia].
  destruct p as [p | p |]; cbn [shr_1 shr_m].
  - rewrite Pos2Z.inj_xI. apply Z.div_unique with (r := 1); lia.
  - rewrite Pos2Z.inj_xO. apply Z.div_unique with (r := 0); lia.
  - reflexivity.
Qed.

Lemma iter_shr_1_m (n : positive) : forall mrs,
  0 <= shr_m mrs ->
  shr_m (SpecFloat.iter_pos shr_1 n mrs) = shr_m mrs / 2 ^ Z.pos n.
Proof.
  induction n as [n IH | n IH |]; intros mrs Hm; cbn [SpecFloat.iter_pos].
  - assert (Hp : 0 < 2 ^ Z.pos n) by (apply Z.pow_pos_nonneg; lia).
    assert (H1 : 0 <= shr_m (shr_1 mrs))
      by (rewrite shr_1_m by assumption; apply Z.div_pos; lia).
    assert (H2 : 0 <= shr_m (SpecFloat.iter_pos shr_1 n (shr_1 mrs)))
      by (rewrite IH by assumption; apply Z.div_pos; lia).
    rewrite IH by assumption. rewrite IH by assumption.
    rewrite shr_1_m by assumption.
    rewrite !Z.div_div by lia.
    f_equal. rewrite (Pos2Z.inj_xI n).
    replace (2 * Z.pos n + 1) with (Z.pos n + Z.pos n + 1) by lia.
    rewrite !Z.pow_add_r by lia. rewrite Z.pow_1_r. ring.
  - assert (Hp : 0 < 2 ^ Z.pos n) by (apply Z.pow_pos_nonneg; lia).
    assert (H2 : 0 <= shr_m (SpecFloat.iter_pos shr_1 n mrs))
      by (rewrite IH by assumption; apply Z.div_pos; lia).
    rewrite IH by assumption. rewrite IH by assumption.
    rewrite Z.div_div by lia.
    f_equal. rewrite (Pos2Z.inj_xO n).
    replace (2 * Z.pos n) with (Z.pos n + Z.pos n) by lia.
    now rewrite Z.pow_add_r by lia.
  - rewrite shr_1_m by assumption. reflexivity.
Qed.

Lemma fexp_normal (k : Z) : 1 <= k -> fexp prec emax k = k - 53.
Proof. intros Hk. unfold fexp, emin, prec, emax. lia. Qed.

Lemma shr_fexp_canonical (p : positive) (e : Z) :
  fexp prec emax (Z.pos (digits2_pos p) + e) = e ->
  shr_fexp prec emax (Z.pos p) e loc_Exact =
  ({| shr_m := Z.pos p; shr_r := false; shr_s := false |}, e).
Proof.
  intros H. unfold shr_fexp, Zdigits2. rewrite H, Z.sub_diag. reflexivity.
Qed.

Lemma binary_round_aux_canonical (s : bool) (p : positive) (e : Z) :
  fexp prec emax (Z.pos (digits2_pos p) + e) = e -> e <= emax - prec ->
  binary_round_aux prec emax s (Z.pos p) e loc_Exact = S754_finite s p e.
Proof.
  intros Hc He. unfold binary_round_aux.
  rewrite shr_fexp_canonical by assumption.
  cbn [shr_m loc_of_shr_record round_nearest_even].
  rewrite shr_fexp_canonical by assumption.
  cbn [shr_m]. apply Z.leb_le in He. now rewrite He.
Qed.

Lemma digits2_pos_iter_xO (m k : positive) :
  Z.pos (digits2_pos (Pos.iter xO m k)) = Z.pos (digits2_pos m) + Z.pos k.
Proof.
  induction k as [| k IH] using Pos.peano_ind.
  - cbn [Pos.iter digits2_pos]. lia.
  - rewrite Pos.iter_succ. cbn [digits2_pos]. lia.
Qed.

Lemma round_nearest_even_cases (m : Z) (l : location) :
  round_nearest_even m l = m \/ round_nearest_even m l = m + 1.
Proof.
  destruct l as [| []]; cbn [round_nearest_even]; auto.
  destruct (Z.even m); auto.
Qed.

Lemma bounded_intro (p : positive) (e : Z) :
  fexp prec emax (Z.pos (digits2_pos p) + e) = e -> e <= emax - prec ->
  bounded prec emax p e = true.
Proof.
  intros Hc He. unfold bounded, canonical_mantissa.
  rewrite Hc, Z.eqb_refl. now apply Z.leb_le.
Qed.

Lemma binary_round_int (s : bool) (m : positive) :
  rounds_to s (binary_round prec emax s m 0).
Proof.
  pose proof (digits2_pos_bounds m) as [Hlo Hhi].
  set (d := Z.pos (digits2_pos m)) in *.
  assert (Hd : 1 <= d) by (subst d; lia).
  unfold binary_round. rewrite Z.add_0_r. fold d.
  rewrite fexp_normal by assumption.
  unfold shl_align. rewrite Z.sub_0_r.
  destruct (d - 53) as [| k | k] eqn:Hk.
  - (* 53 digits *)
    rewrite binary_round_aux_canonical.
    + split; [reflexivity |]. apply bounded_intro.
      * fold d. rewrite fexp_normal by lia. lia.
      * unfold emax, prec. lia.
    + fold d. rewrite fexp_normal by lia. lia.
    + unfold emax, prec. lia.
  - (* more than 53 digits: the low [k] bits are rounded away *)
    unfold binary_round_aux, shr_fexp at 1.
    unfold Zdigits2 at 1. fold d. rewrite Z.add_0_r, Z.sub_0_r.
    rewrite fexp_normal by assumption. rewrite Hk.
    cbn [shr shr_record_of_loc].
    set (mrs := SpecFloat.iter_pos shr_1 k _).
    assert (Hm1 : shr_m mrs = Z.pos m / 2 ^ Z.pos k)
      by (subst mrs; now rewrite iter_shr_1_m).
    assert (Hpk : 0 < 2 ^ Z.pos k) by (apply Z.pow_pos_nonneg; lia).
    assert (Hb : 2 ^ 52 <= shr_m mrs < 2 ^ 53).
    { rewrite Hm1. replace d with (53 + Z.pos k) in Hlo, Hhi by lia.
      replace (53 + Z.pos k - 1) with (52 + Z.pos k) in Hlo by lia.
      rewrite Z.pow_add_r in Hlo, Hhi by lia. split.
      - apply Z.div_le_lower_bound; lia.
      - apply Z.div_lt_upper_bound; lia. }
    destruct (round_nearest_even_cases (shr_m mrs) (loc_of_shr_record mrs)) as [-> | ->].
    + destruct (shr_m mrs) as [| p |] eqn:Hp; try lia.
      assert (Hdp : Z.pos (digits2_pos p) = 53) by (apply digits2_pos_unique; lia).
      rewrite shr_fexp_canonical by (rewrite Hdp, fexp_normal; lia).
      cbn [shr_m].
      destruct (0 + Z.pos k <=? emax - prec) eqn:He; [| reflexivity].
      split; [reflexivity |]. apply Z.leb_le in He.
      apply bounded_intro; [rewrite Hdp, fexp_normal; lia | assumption].
    + destruct (Z.eq_dec (shr_m mrs + 1) (2 ^ 53)) as [Htop | Htop].
      * rewrite Htop. change (2 ^ 53) with (Z.pos 9007199254740992).
        unfold shr_fexp, Zdigits2.
        change (Z.pos (digits2_pos 9007199254740992)) with 54.
        rewrite fexp_normal by lia.
        replace (54 + (0 + Z.pos k) - 53 - (0 + Z.pos k)) with 1 by lia.
        cbn [shr shr_record_of_loc SpecFloat.iter_pos shr_1 shr_m].
        destruct (0 + Z.pos k + 1 <=? emax - prec) eqn:He; [| reflexivity].
        split; [reflexivity |]. apply Z.leb_le in He.
        apply bounded_intro; [| assumption].
        change (Z.pos (digits2_pos 4503599627370496)) with 53.
        rewrite fexp_normal; lia.
      * destruct (shr_m mrs + 1) as [| p |] eqn:Hp; try lia.
        assert (Hdp : Z.pos (digits2_pos p) = 53) by (apply digits2_pos_unique; lia).
        rewrite shr_fexp_canonical by (rewrite Hdp, fexp_normal; lia).
        cbn [shr_m].
        destruct (0 + Z.pos k <=? emax - prec) eqn:He; [| reflexivity].
        split; [reflexivity |]. apply Z.leb_le in He.
        apply bounded_intro; [rewrite Hdp, fexp_normal; lia | assumption].
  - (* fewer than 53 digits: the mantissa is shifted left *)
    assert (Hdz : Z.pos (digits2_pos (Pos.iter xO m k)) = 53)
      by (rewrite digits2_pos_iter_xO; fold d; lia).
    rewrite binary_round_aux_canonical.
    + split; [reflexivity |]. apply bounded_intro.
      * rewrite Hdz, fexp_normal; lia.
      * unfold emax, prec. lia.
    + rewrite Hdz, fexp_normal; lia.
    + unfold emax, prec. lia.
Qed.

Lemma binary_normalize_int (z : Z) :
  z <> 0 -> rounds_to (z <? 0) (binary_normalize prec emax z 0 false).
Proof.
  intros Hz. unfold binary_normalize.
  destruct z as [| m | m]; [contradiction | |]; apply binary_round_int.
Qed.

(** [float(z)] of an int other than 0 is a finite float other than zero,
    of the sign of [z]. *)
Lemma float_of_Z_finite (z : Z) (b : float) :
  z <> 0 -> float_of_Z z = Ok b ->
  exists m e, Prim2SF b = S754_finite (z <? 0) m e.
Proof.
  intros Hz. unfold float_of_Z.
  pose proof (binary_normalize_int z Hz) as Hr.
  destruct (binary_normalize prec emax z 0 false) as [s | s | | s m e];
    cbn [rounds_to] in Hr; try contradiction; [discriminate |].
  destruct Hr as [-> Hb]. intros H.
  assert (Hbf : b = SF2Prim (S754_finite (z <? 0) m e)) by congruence.
  exists m, e. rewrite Hbf. now apply Prim2SF_SF2Prim.
Qed.

(** An int converts to a float zero only when it is 0. *)
Lemma float_of_Z_eq_zero (z : Z) (b : float) :
  float_of_Z z = Ok b -> (b =? 0)%float = (z =? 0).
Proof.
  intros H. destruct (Z.eqb_spec z 0) as [-> | Hz].
  - injection H as <-. reflexivity.
  - destruct (float_of_Z_finite z b Hz H) as (m & e & Hb).
    rewrite FloatAxioms.eqb_spec, Hb, Prim2SF_zero.
    now destruct (z <? 0).
Qed.

(** The float of a positive int is not below zero. *)
Lemma float_of_Z_pos_not_neg (z : Z) (b : float) :
  0 < z -> float_of_Z z = Ok b -> (b <? 0)%float = false.
Proof.
  intros Hz H.
  destruct (float_of_Z_finite z b ltac:(lia) H) as (m & e & Hb).
  rewrite FloatAxioms.ltb_spec, Hb, Prim2SF_zero.
  destruct (Z.ltb_spec z 0); [lia | reflexivity].
Qed.

(** The divisor test of a float division, on the operand as written. *)
Lemma to_float_eq_zero (y : scalar) (b : float) :
  to_float y = Ok b -> (b =? 0)%float = scalar_is_zero y.
Proof.
  destruct y as [z | g]; cbn [to_float scalar_is_zero].
  - apply float_of_Z_eq_zero.
  - now intros [= ->].
Qed.

(** A float equals the int [0] exactly when it is a float zero. *)
Lemma py_eq_float_zero (g : float) :
  py_eq (SFloat g) (SInt 0) = (g =? 0)%float.
Proof.
  unfold py_eq, float_cmp_Z.
  rewrite FloatAxioms.eqb_spec, Prim2SF_zero.
  destruct (Prim2SF g) as [s | s | | s m e]; try destruct s; try reflexivity.
  - unfold SFeqb, SFcompare, cond_Zopp.
    destruct (0 <=? e) eqn:He.
    + apply Z.leb_le in He.
      assert (Hp : 0 < 2 ^ e) by (apply Z.pow_pos_nonneg; lia).
      destruct (Z.compare_spec (- Z.pos m * 2 ^ e) 0) as [H | H | H];
        try reflexivity.
      nia.
    + reflexivity.
  - unfold SFeqb, SFcompare, cond_Zopp.
    destruct (0 <=? e) eqn:He.
    + apply Z.leb_le in He.
      assert (Hp : 0 < 2 ^ e) by (apply Z.pow_pos_nonneg; lia).
      destruct (Z.compare_spec (Z.pos m * 2 ^ e) 0) as [H | H | H];
        try reflexivity.
      nia.
    + reflexivity.
Qed.

(** [y == 0] is the test that division makes on its divisor. *)
Lemma py_eq_zero (y : scalar) : py_eq y (SInt 0) = scalar_is_zero y.
Proof.
  destruct y as [z | g]; [reflexivity | apply py_eq_float_zero].
Qed.

Lemma float_of_Z_not_ZDE (z : Z) : float_of_Z z <> Raise ZeroDivisionError.
Proof.
  unfold float_of_Z.
  destruct (binary_normalize prec emax z 0 false); discriminate.
Qed.

Lemma to_float_not_ZDE (x : scalar) : to_float x <> Raise ZeroDivisionError.
Proof.
  destruct x; [apply float_of_Z_not_ZDE | discriminate].
Qed.

Lemma long_true_divide_not_ZDE (a b : Z) :
  long_true_divide a b <> Raise ZeroDivisionError.
Proof.
  unfold long_true_divide.
  destruct (Z.abs a), (Z.abs b); try discriminate.
  match goal with |- context [SFdiv ?p ?e ?u ?v] => destruct (SFdiv p e u v) end;
    discriminate.
Qed.

(** The test on the converted divisor is a test on the divisor itself:
    an int converts to [0.0] only when it is 0. *)
Lemma py_truediv_divisor (x y : scalar) :
  py_truediv x y =
  match x, y with
  | SInt a, SInt b =>
      if b =? 0 then Raise ZeroDivisionError
      else SFloat <$> long_true_divide a b
  | _, _ =>
      a ← to_float x; b ← to_float y;
      if scalar_is_zero y then Raise ZeroDivisionError
      else Ok (SFloat (a / b)%float)
  end.
Proof.
  unfold py_truediv.
  destruct x as [a | u], y as [b | v]; try reflexivity;
    cbn [to_float mbind result_bind scalar_is_zero].
  destruct (float_of_Z b) as [w | e |] eqn:E; try reflexivity.
  cbn [mbind result_bind]. now rewrite (float_of_Z_eq_zero b w E).
Qed.

(** Division raises [ZeroDivisionError] only on a zero divisor. *)
Lemma py_truediv_ZDE (x y : scalar) :
  py_truediv x y = Raise ZeroDivisionError -> scalar_is_zero y = true.
Proof.
  rewrite py_truediv_divisor.
  destruct x as [a | u], y as [b | v]; simpl.
  - destruct (b =? 0); [reflexivity |].
    pose proof (long_true_divide_not_ZDE a b) as Hn.
    destruct (long_true_divide a b) as [q | e |]; simpl; try discriminate.
    intros [= ->]. contradiction.
  - pose proof (float_of_Z_not_ZDE a) as Hn.
    destruct (float_of_Z a) as [u | e |]; simpl; try discriminate.
    + destruct (v =? 0)%float; [reflexivity | discriminate].
    + intros [= ->]. contradiction.
  - pose proof (float_of_Z_not_ZDE b) as Hn.
    destruct (float_of_Z b) as [v | e |]; simpl; try discriminate.
    + destruct (b =? 0); [reflexivity | discriminate].
    + intros [= ->]. contradiction.
  - destruct (v =? 0)%float; [reflexivity | discriminate].
Qed.

Lemma py_truediv_nonzero_not_ZDE (x y : scalar) :
  py_eq y (SInt 0) = false -> py_truediv x y <> Raise ZeroDivisionError.
Proof.
  intros Hy H. apply py_truediv_ZDE in H.
  rewrite py_eq_zero in Hy. congruence.
Qed.

(** Two floats always have a quotient unless the divisor is a zero. *)
Lemma py_truediv_floats (u v : float) :
  py_truediv (SFloat u) (SFloat v) =
  if (v =? 0)%float then Raise ZeroDivisionError else Ok (SFloat (u / v)%float).
Proof. reflexivity. Qed.

(** *** Multiplying a float by [-1] negates it

    The reflected division [1 / x] computes [-1 * b] where [inverse]
    computes [-b]; in binary64 the two are the same number. *)

Lemma shr_52 (m : positive) :
  SpecFloat.iter_pos shr_1 52
    {| shr_m := Z.pos (4503599627370496 * m); shr_r := false; shr_s := false |} =
  {| shr_m := Z.pos m; shr_r := false; shr_s := false |}.
Proof. reflexivity. Qed.

Lemma digits2_pos_shift_52 (m : positive) :
  Z.pos (digits2_pos (4503599627370496 * m)) = Z.pos (digits2_pos m) + 52.
Proof.
  change (4503599627370496 * m)%positive with (Pos.iter xO m 52).
  simpl. lia.
Qed.

(** Rounding [m * 2^52 * 2^(e - 52)] gives back the float [m * 2^e]. *)
Lemma binary_round_aux_shift_52 (sx : bool) (m : positive) (e : Z) :
  bounded prec emax m e = true ->
  binary_round_aux prec emax sx (Z.pos (4503599627370496 * m)) (-52 + e) loc_Exact =
  S754_finite sx m e.
Proof.
  intros Hb. unfold bounded, canonical_mantissa in Hb.
  apply andb_prop in Hb as [Hc He]. apply Z.eqb_eq in Hc.
  unfold binary_round_aux, shr_fexp.
  unfold Zdigits2 at 1. rewrite digits2_pos_shift_52.
  replace (Z.pos (digits2_pos m) + 52 + (-52 + e))
    with (Z.pos (digits2_pos m) + e) by lia.
  rewrite Hc.
  replace (e - (-52 + e)) with 52 by lia.
  unfold shr_record_of_loc at 1. unfold shr at 1.
  rewrite shr_52.
  cbn [shr_m loc_of_shr_record round_nearest_even].
  unfold Zdigits2.
  replace (-52 + e + 52) with e by lia.
  rewrite Hc, Z.sub_diag.
  cbn [shr shr_record_of_loc shr_m].
  rewrite He. reflexivity.
Qed.

Lemma float_mul_neg_one (g : float) : (-1 * g)%float = (- g)%float.
Proof.
  apply Prim2SF_inj.
  rewrite FloatAxioms.mul_spec, FloatAxioms.opp_spec.
  change (Prim2SF (-1)%float) with (S754_finite true 4503599627370496 (-52)).
  pose proof (Prim2SF_valid g) as Hv.
  destruct (Prim2SF g) as [s | s | | s m e]; try reflexivity.
  simpl in Hv. unfold SF64mul, SFmul, SFopp.
  apply binary_round_aux_shift_52, Hv.
Qed.

Lemma float_of_Z_neg_one : float_of_Z (-1) = Ok (-1)%float.
Proof. reflexivity. Qed.

Lemma py_mul_neg_one (b : scalar) : py_mul (SInt (-1)) b = Ok (py_neg b).
Proof.
  destruct b as [z | g].
  - unfold py_mul, py_neg. replace (-1 * z) with (- z) by lia. reflexivity.
  - unfold py_mul, float_binop, to_float. rewrite float_of_Z_neg_one.
    simpl. now rewrite float_mul_neg_one.
Qed.

(** *** No operator raises an exception of another kind *)

Lemma py_mul_not_ZDE (x y : scalar) : py_mul x y <> Raise ZeroDivisionError.
Proof.
  pose proof (to_float_not_ZDE x) as Hx. pose proof (to_float_not_ZDE y) as Hy.
  destruct x, y; unfold py_mul, float_binop; try discriminate;
    repeat match goal with
    | |- context [to_float ?s] => destruct (to_float s) as [? | [] |]
    end; simpl; congruence.
Qed.

Lemma py_sub_not_ZDE (x y : scalar) : py_sub x y <> Raise ZeroDivisionError.
Proof.
  pose proof (to_float_not_ZDE x) as Hx. pose proof (to_float_not_ZDE y) as Hy.
  destruct x, y; unfold py_sub, float_binop; try discriminate;
    repeat match goal with
    | |- context [to_float ?s] => destruct (to_float s) as [? | [] |]
    end; simpl; congruence.
Qed.

Lemma float_of_Z_not_TypeError (z : Z) : float_of_Z z <> Raise TypeError.
Proof.
  unfold float_of_Z.
  destruct (binary_normalize prec emax z 0 false); discriminate.
Qed.

Lemma to_float_not_TypeError (x : scalar) : to_float x <> Raise TypeError.
Proof.
  destruct x; [apply float_of_Z_not_TypeError | discriminate].
Qed.

Lemma float_binop_not_TypeError op (x y : scalar) :
  float_binop op x y <> Raise TypeError.
Proof.
  pose proof (to_float_not_TypeError x) as Hx.
  pose proof (to_float_not_TypeError y) as Hy.
  unfold float_binop.
  destruct (to_float x) as [? | [] |], (to_float y) as [? | [] |];
    simpl; congruence.
Qed.

Lemma py_mul_not_TypeError (x y : scalar) : py_mul x y <> Raise TypeError.
Proof.
  destruct x, y; simpl; try discriminate; apply float_binop_not_TypeError.
Qed.

Lemma py_sub_not_TypeError (x y : scalar) : py_sub x y <> Raise TypeError.
Proof.
  destruct x, y; simpl; try discriminate; apply float_binop_not_TypeError.
Qed.

(** ** Exponentiation *)

Section Properties.

Variable libm_pow : float -> float -> float.
Variable math_log : scalar -> float.

Lemma float_pow_not_TypeError (v w : float) :
  float_pow libm_pow v w <> Raise TypeError.
Proof.
  unfold float_pow. repeat case_match; discriminate.
Qed.

(** [**] raises [ZeroDivisionError] on a zero base with a negative
    exponent and on nothing else. *)
Lemma float_pow_ZDE (v w : float) :
  float_pow libm_pow v w = Raise ZeroDivisionError ->
  (v =? 0)%float = true /\ (w <? 0)%float = true.
Proof.
  unfold float_pow. repeat case_match; try discriminate. auto.
Qed.

(** Squaring a float. *)
Lemma float_pow_two (v : float) :
  float_pow libm_pow v 2 =
  if is_nan v then Ok (SFloat v)
  else if is_infinity v then Ok (SFloat (abs v))
  else if (v =? 0)%float then Ok (SFloat 0)
  else
    let av := if (v <? 0)%float then (- v)%float else v in
    if (av =? 1)%float then Ok (SFloat 1)
    else
      let x := libm_pow av 2 in
      if is_infinity x then Raise OverflowError else Ok (SFloat x).
Proof.
  unfold float_pow.
  change (2 =? 0)%float with false. change (is_nan 2) with false.
  change (is_infinity 2) with false. change (is_odd_integer 2) with false.
  change (0 <? 2)%float with true. change (2 <? 0)%float with false.
  change (float_integer 2) with (Some 2).
  cbv zeta. rewrite !andb_false_r.
  repeat case_match; reflexivity.
Qed.

Lemma py_pow_int_two (a : Z) : py_pow libm_pow (SInt a) (SInt 2) = Ok (SInt (a ^ 2)).
Proof. reflexivity. Qed.

Lemma py_pow_float_two (v : float) :
  py_pow libm_pow (SFloat v) (SInt 2) = float_pow libm_pow v 2.
Proof. reflexivity. Qed.

Lemma py_pow_two_not_ZDE (a : scalar) :
  py_pow libm_pow a (SInt 2) <> Raise ZeroDivisionError.
Proof.
  destruct a as [z | v]; [discriminate |].
  rewrite py_pow_float_two. intros H. apply float_pow_ZDE in H as [_ H].
  discriminate.
Qed.

Lemma py_pow_not_TypeError (x y : scalar) :
  py_pow libm_pow x y <> Raise TypeError.
Proof.
  pose proof (to_float_not_TypeError x) as Hx.
  pose proof (to_float_not_TypeError y) as Hy.
  pose proof float_pow_not_TypeError as Hp.
  destruct x as [a | u], y as [b | w]; unfold py_pow;
    try (destruct (0 <=? b); [discriminate |]);
    unfold to_float in *;
    repeat match goal with
    | |- context [float_of_Z ?s] => destruct (float_of_Z s) as [? | [] |]
    end; simpl; try congruence; apply Hp.
Qed.

(** ** The documentation's example *)

(** C1. Evaluating [f(x) = x*x + 3*x + 5] at [x = Dual(2, 1)] gives a dual
    number with real part exactly 15 and dual part exactly 7: with the int
    fields of the documentation's example the ints 15 and 7, with float
    fields the floats 15.0 and 7.0. *)
Theorem f_at_two :
  f (VDual (mkDual (SInt 2) (SInt 1))) = Ok (VDual (mkDual (SInt 15) (SInt 7))) /\
  f (VDual (mkDual (SFloat 2) (SFloat 1))) =
    Ok (VDual (mkDual (SFloat 15) (SFloat 7))).
Proof.
  split.
  - unfold f.
    change (binop_mul (VDual (mkDual (SInt 2) (SInt 1))) (VDual (mkDual (SInt 2) (SInt 1))))
      with (Ok (VDual (mkDual (SInt 4) (SInt 4)))).
    change (binop_mul (VNum (SInt 3)) (VDual (mkDual (SInt 2) (SInt 1))))
      with (Ok (VDual (mkDual (SInt 6) (SInt 3)))).
    reflexivity.
  - unfold f.
    change (binop_mul (VDual (mkDual (SFloat 2) (SFloat 1)))
              (VDual (mkDual (SFloat 2) (SFloat 1))))
      with (Ok (VDual (mkDual (SFloat 4) (SFloat 4)))).
    change (binop_mul (VNum (SInt 3)) (VDual (mkDual (SFloat 2) (SFloat 1))))
      with (Ok (VDual (mkDual (SFloat 6) (SFloat 3)))).
    reflexivity.
Qed.

(** ** Multiplication *)

(** C2. The product of [x = (a1, b1)] and [y = (a2, b2)] is the dual number
    with real part [a1*a2] and dual part [a1*b2 + b1*a2], the operators
    being Python's: on float fields and on int fields the product always
    exists and has these parts; on mixed fields it has them whenever the
    four scalar operations have values.  [Dual(2,1) * Dual(3,2)] is
    [Dual(6, 7)]. *)
Theorem mul_product_rule :
  (forall a1 b1 a2 b2 : scalar,
     __mul__ (mkDual a1 b1) (VDual (mkDual a2 b2)) =
       (r ← py_mul a1 a2;
        t1 ← py_mul a1 b2;
        t2 ← py_mul b1 a2;
        d ← py_add t1 t2;
        Ok (mkDual r d))) /\
  (forall a1 b1 a2 b2 : float,
     __mul__ (mkDual (SFloat a1) (SFloat b1)) (VDual (mkDual (SFloat a2) (SFloat b2))) =
       Ok (mkDual (SFloat (a1 * a2)) (SFloat (a1 * b2 + b1 * a2)))) /\
  (forall a1 b1 a2 b2 : Z,
     __mul__ (mkDual (SInt a1) (SInt b1)) (VDual (mkDual (SInt a2) (SInt b2))) =
       Ok (mkDual (SInt (a1 * a2)) (SInt (a1 * b2 + b1 * a2)))) /\
  __mul__ (mkDual (SInt 2) (SInt 1)) (VDual (mkDual (SInt 3) (SInt 2))) =
    Ok (mkDual (SInt 6) (SInt 7)).
Proof.
  repeat split; intros; reflexivity.
Qed.

(** ** Equality *)

(** C9. [x == y] is decided by the two fields alone: two dual numbers are
    equal exactly when their real parts are equal and their dual parts are
    equal, a dual number equals a number [s] exactly when its real part
    equals [s] and its dual part equals 0.  On floats the comparison is the
    IEEE 754 one, with no tolerance. *)
Theorem eq_fields :
  (forall a b c d : scalar,
     __eq__ (mkDual a b) (VDual (mkDual c d)) = true <->
     py_eq a c = true /\ py_eq b d = true) /\
  (forall a b s : scalar,
     __eq__ (mkDual a b) (VNum s) = true <->
     py_eq a s = true /\ py_eq b (SInt 0) = true) /\
  (forall a b c d : float,
     __eq__ (mkDual (SFloat a) (SFloat b)) (VDual (mkDual (SFloat c) (SFloat d))) =
     (a =? c)%float && (b =? d)%float) /\
  (forall a b s : float,
     __eq__ (mkDual (SFloat a) (SFloat b)) (VNum (SFloat s)) =
     (a =? s)%float && (b =? 0)%float).
Proof.
  split; [| split; [| split]].
  - intros a b c d. unfold __eq__. simpl. apply andb_true_iff.
  - intros a b s. unfold __eq__. simpl. apply andb_true_iff.
  - intros a b c d. reflexivity.
  - intros a b s. unfold __eq__. cbn [real dual].
    now rewrite py_eq_float_zero.
Qed.

(** No tolerance: [1.0] and the next float above it differ. *)
Example eq_no_tolerance :
  __eq__ (mkDual (SFloat 1) (SFloat 0))
         (VDual (mkDual (SFloat (next_up 1)) (SFloat 0))) = false.
Proof. reflexivity. Qed.

(** A NaN field makes a dual number unequal to itself. *)
Example eq_nan_irreflexive :
  __eq__ (mkDual (SFloat nan) (SFloat 0)) (VDual (mkDual (SFloat nan) (SFloat 0))) = false.
Proof. reflexivity. Qed.

(** ** Division *)

(** Peels one step off a chain of operations that is known to raise
    [ZeroDivisionError]: the step either has a value, or is itself the
    operation that raised. *)
Ltac zde_step H :=
  match type of H with
  | context [mbind _ ?m] =>
      let E := fresh "E" in
      destruct m as [? | ? |] eqn:E;
      cbn [mbind result_bind] in H;
      [ | injection H as ->; exfalso | discriminate H ]
  end.

(** C3, as amended.  [x / y] raises [ZeroDivisionError] whenever [y]'s real
    part is zero, whatever its dual part ([Dual(1,0) / Dual(0,1)] does).
    When the real part [a2] is not zero, the outcome is that of evaluating
    real part [a1/a2] and dual part [(b1*a2 - a1*b2)/(a2**2)] in Python
    arithmetic: the dual number with these parts, or the exception their
    evaluation raises.  That exception is a [ZeroDivisionError] only when
    [a2**2] itself evaluates to a zero, as the square of a very small
    float does; for an int [a2] it never is.  On float fields the dual
    number is returned when [a2**2] evaluates to a non-zero float, and
    [ZeroDivisionError] is raised when it evaluates to a zero. *)
Theorem truediv_dual_spec (x y : Dual) :
  (py_eq (real y) (SInt 0) = true ->
   __truediv__ libm_pow x (VDual y) = Raise ZeroDivisionError) /\
  (py_eq (real y) (SInt 0) = false ->
   __truediv__ libm_pow x (VDual y) =
     (r ← py_truediv (real x) (real y);
      t1 ← py_mul (dual x) (real y);
      t2 ← py_mul (real x) (dual y);
      n ← py_sub t1 t2;
      sq ← py_pow libm_pow (real y) (SInt 2);
      d ← py_truediv n sq;
      Ok (mkDual r d))) /\
  (__truediv__ libm_pow x (VDual y) = Raise ZeroDivisionError ->
   py_eq (real y) (SInt 0) = true \/
   exists sq, py_pow libm_pow (real y) (SInt 2) = Ok sq /\ py_eq sq (SInt 0) = true) /\
  (forall z : Z, real y = SInt z ->
   (__truediv__ libm_pow x (VDual y) = Raise ZeroDivisionError <-> z = 0)) /\
  (forall a1 b1 a2 b2 sq : float,
   x = mkDual (SFloat a1) (SFloat b1) -> y = mkDual (SFloat a2) (SFloat b2) ->
   (a2 =? 0)%float = false ->
   py_pow libm_pow (SFloat a2) (SInt 2) = Ok (SFloat sq) ->
   (sq =? 0)%float = false ->
   __truediv__ libm_pow x (VDual y) =
     Ok (mkDual (SFloat (a1 / a2)) (SFloat ((b1 * a2 - a1 * b2) / sq)))) /\
  (forall a1 b1 a2 b2 sq : float,
   x = mkDual (SFloat a1) (SFloat b1) -> y = mkDual (SFloat a2) (SFloat b2) ->
   (a2 =? 0)%float = false ->
   py_pow libm_pow (SFloat a2) (SInt 2) = Ok (SFloat sq) ->
   (sq =? 0)%float = true ->
   __truediv__ libm_pow x (VDual y) = Raise ZeroDivisionError) /\
  __truediv__ libm_pow (mkDual (SInt 1) (SInt 0)) (VDual (mkDual (SInt 0) (SInt 1))) =
    Raise ZeroDivisionError.
Proof.
  assert (Hzero : py_eq (real y) (SInt 0) = true ->
                  __truediv__ libm_pow x (VDual y) = Raise ZeroDivisionError).
  { intros Hz. unfold __truediv__. now rewrite Hz. }
  assert (Hraise : __truediv__ libm_pow x (VDual y) = Raise ZeroDivisionError ->
            py_eq (real y) (SInt 0) = true \/
            exists sq, py_pow libm_pow (real y) (SInt 2) = Ok sq /\
                       py_eq sq (SInt 0) = true).
  { unfold __truediv__. intros H.
    destruct (py_eq (real y) (SInt 0)) eqn:Hz; [now left | right].
    zde_step H; [| now apply (py_truediv_nonzero_not_ZDE (real x) (real y))].
    zde_step H; [| now apply (py_mul_not_ZDE (dual x) (real y))].
    zde_step H; [| now apply (py_mul_not_ZDE (real x) (dual y))].
    zde_step H; [| eapply py_sub_not_ZDE; eassumption].
    zde_step H; [| now apply (py_pow_two_not_ZDE (real y))].
    match type of H with
    | context [mbind _ ?m] =>
        destruct m as [? | ? |] eqn:Ed; cbn [mbind result_bind] in H;
        [discriminate H | injection H as -> | discriminate H]
    end.
    eexists. split; [reflexivity |].
    rewrite py_eq_zero. eapply py_truediv_ZDE. eassumption. }
  split; [exact Hzero |].
  split; [| split; [exact Hraise |]; split; [| split; [| split]]].
  - intros Hz. unfold __truediv__. now rewrite Hz.
  - intros z Hy. split.
    + intros H. apply Hraise in H. rewrite Hy in H.
      destruct H as [H | (sq & Hsq & H)].
      * now apply Z.eqb_eq in H.
      * rewrite py_pow_int_two in Hsq. injection Hsq as <-.
        apply Z.eqb_eq in H. nia.
    + intros ->. apply Hzero. now rewrite Hy.
  - intros a1 b1 a2 b2 sq -> -> Ha Hsq Hs.
    unfold __truediv__. cbn [real dual].
    rewrite py_eq_float_zero, Ha, Hsq.
    rewrite py_truediv_floats, Ha.
    cbn [mbind result_bind py_mul py_sub float_binop to_float].
    now rewrite py_truediv_floats, Hs.
  - intros a1 b1 a2 b2 sq -> -> Ha Hsq Hs.
    unfold __truediv__. cbn [real dual].
    rewrite py_eq_float_zero, Ha, Hsq.
    rewrite py_truediv_floats, Ha.
    cbn [mbind result_bind py_mul py_sub float_binop to_float].
    now rewrite py_truediv_floats, Hs.
  - reflexivity.
Qed.

(** ** Inverse *)

Lemma py_truediv_one_float (a : float) :
  py_truediv (SInt 1) (SFloat a) =
  if (a =? 0)%float then Raise ZeroDivisionError else Ok (SFloat (1 / a)%float).
Proof. reflexivity. Qed.

(** C7, as amended.  On every dual number [x = (a, b)], [x.inverse()] and
    the reflected division [1 / x] have the same outcome: the same real
    and dual parts, or the same exception.  With [a == 0] both raise
    [ZeroDivisionError].  With [a != 0] the outcome is that of evaluating
    [(1/a, -b/(a**2))] in Python arithmetic, so the dual number with these
    parts is returned when they have values: on float fields, whenever
    [a**2] evaluates to a non-zero float; when it evaluates to a zero,
    [ZeroDivisionError] is raised. *)
Theorem inverse_spec (x : Dual) :
  binop_truediv libm_pow (VNum (SInt 1)) (VDual x) = VDual <$> inverse libm_pow x /\
  (py_eq (real x) (SInt 0) = true ->
   inverse libm_pow x = Raise ZeroDivisionError /\
   binop_truediv libm_pow (VNum (SInt 1)) (VDual x) = Raise ZeroDivisionError) /\
  (py_eq (real x) (SInt 0) = false ->
   inverse libm_pow x =
     (real_inv ← py_truediv (SInt 1) (real x);
      sq ← py_pow libm_pow (real x) (SInt 2);
      dual_inv ← py_truediv (py_neg (dual x)) sq;
      Ok (mkDual real_inv dual_inv))) /\
  (forall a b sq : float,
   x = mkDual (SFloat a) (SFloat b) ->
   (a =? 0)%float = false ->
   py_pow libm_pow (SFloat a) (SInt 2) = Ok (SFloat sq) ->
   (sq =? 0)%float = false ->
   inverse libm_pow x = Ok (mkDual (SFloat (1 / a)) (SFloat (- b / sq)))) /\
  (forall a b sq : float,
   x = mkDual (SFloat a) (SFloat b) ->
   (a =? 0)%float = false ->
   py_pow libm_pow (SFloat a) (SInt 2) = Ok (SFloat sq) ->
   (sq =? 0)%float = true ->
   inverse libm_pow x = Raise ZeroDivisionError).
Proof.
  assert (Hsame : __rtruediv__ libm_pow x (SInt 1) = inverse libm_pow x).
  { unfold __rtruediv__, inverse.
    destruct (py_eq (real x) (SInt 0)); [reflexivity |].
    change (py_neg (SInt 1)) with (SInt (-1)).
    rewrite py_mul_neg_one.
    destruct (py_truediv (SInt 1) (real x)); reflexivity. }
  split; [| split; [| split; [| split]]].
  - unfold binop_truediv. now rewrite Hsame.
  - intros Hz. unfold binop_truediv. rewrite Hsame.
    unfold inverse. rewrite Hz. split; reflexivity.
  - intros Hz. unfold inverse. now rewrite Hz.
  - intros a b sq -> Ha Hsq Hs.
    unfold inverse. cbn [real dual].
    rewrite py_eq_float_zero, Ha, Hsq.
    rewrite py_truediv_one_float, Ha.
    cbn [mbind result_bind py_neg].
    now rewrite py_truediv_floats, Hs.
  - intros a b sq -> Ha Hsq Hs.
    unfold inverse. cbn [real dual].
    rewrite py_eq_float_zero, Ha, Hsq.
    rewrite py_truediv_one_float, Ha.
    cbn [mbind result_bind py_neg].
    now rewrite py_truediv_floats, Hs.
Qed.

(** ** Logarithm *)

Lemma float_eq_zero_cases (g : float) :
  (g =? 0)%float = true -> g = 0%float \/ g = (-0)%float.
Proof.
  rewrite FloatAxioms.eqb_spec, Prim2SF_zero. intros H.
  rewrite <- (SF2Prim_Prim2SF g).
  destruct (Prim2SF g) as [[] | [] | | [] m e]; try discriminate H; auto.
Qed.

Lemma py_le_float_zero (g : float) :
  py_le (SFloat g) (SInt 0) = (g <=? 0)%float.
Proof.
  unfold py_le, float_cmp_Z.
  rewrite FloatAxioms.leb_spec, Prim2SF_zero.
  destruct (Prim2SF g) as [s | s | | s m e]; try destruct s; try reflexivity.
  - unfold SFleb, SFcompare, cond_Zopp.
    destruct (0 <=? e) eqn:He; [| reflexivity].
    apply Z.leb_le in He.
    assert (Hp : 0 < 2 ^ e) by (apply Z.pow_pos_nonneg; lia).
    destruct (Z.compare_spec (- Z.pos m * 2 ^ e) 0) as [H | H | H];
      try reflexivity; nia.
  - unfold SFleb, SFcompare, cond_Zopp.
    destruct (0 <=? e) eqn:He; [| reflexivity].
    apply Z.leb_le in He.
    assert (Hp : 0 < 2 ^ e) by (apply Z.pow_pos_nonneg; lia).
    destruct (Z.compare_spec (Z.pos m * 2 ^ e) 0) as [H | H | H];
      try reflexivity; nia.
Qed.

(** A zero is [<= 0]. *)
Lemma scalar_is_zero_le (a : scalar) :
  scalar_is_zero a = true -> py_le a (SInt 0) = true.
Proof.
  destruct a as [z | g]; simpl.
  - intros H. apply Z.eqb_eq in H. subst. reflexivity.
  - intros H. fold (py_le (SFloat g) (SInt 0)). rewrite py_le_float_zero.
    destruct (float_eq_zero_cases g H) as [-> | ->]; reflexivity.
Qed.

(** C8, as amended.  [x.log()] raises [ZeroDivisionError], the exception
    of the divisions, exactly when the real part [a] is [<= 0]
    ([Dual(0,1).log()] does); otherwise its outcome is that of evaluating
    real part [log(a)] and dual part [b/a], and on float fields that dual
    number is always returned. *)
Theorem log_spec (x : Dual) :
  (log math_log x = Raise ZeroDivisionError <-> py_le (real x) (SInt 0) = true) /\
  (py_le (real x) (SInt 0) = false ->
   log math_log x =
     (d ← py_truediv (dual x) (real x);
      Ok (mkDual (SFloat (math_log (real x))) d))) /\
  (forall a b : float,
   x = mkDual (SFloat a) (SFloat b) ->
   (a <=? 0)%float = false ->
   log math_log x = Ok (mkDual (SFloat (math_log (SFloat a))) (SFloat (b / a)))) /\
  log math_log (mkDual (SInt 0) (SInt 1)) = Raise ZeroDivisionError.
Proof.
  assert (Hnz : py_le (real x) (SInt 0) = false -> scalar_is_zero (real x) = false).
  { intros Hle. destruct (scalar_is_zero (real x)) eqn:Hz; [| reflexivity].
    apply scalar_is_zero_le in Hz. congruence. }
  split; [| split; [| split]].
  - unfold log. destruct (py_le (real x) (SInt 0)) eqn:Hle; [tauto |].
    split; [| discriminate].
    intros H. zde_step H; [discriminate H |].
    apply py_truediv_ZDE in E. rewrite (Hnz eq_refl) in E. discriminate E.
  - intros Hle. unfold log. now rewrite Hle.
  - intros a b -> Hle. specialize (Hnz (eq_trans (py_le_float_zero a) Hle)).
    unfold log. cbn [real dual] in *.
    rewrite py_le_float_zero, Hle, py_truediv_floats.
    cbn [scalar_is_zero] in Hnz. now rewrite Hnz.
  - reflexivity.
Qed.

(** ** Integer power *)

(** What holds of [pow] as its documentation states it: a non-int exponent
    is a [TypeError], a zero base with a negative exponent is a
    [ZeroDivisionError], every other case evaluates the power rule, and
    [Dual(2,1).pow(3)] is [Dual(8, 12)]. *)
Theorem pow_rejects_non_int :
  (forall (x : Dual) (g : float), pow libm_pow x (VNum (SFloat g)) = Raise TypeError) /\
  (forall x d : Dual, pow libm_pow x (VDual d) = Raise TypeError).
Proof.
  split; intros; reflexivity.
Qed.

Lemma pow_guard (x : Dual) (n : Z) :
  py_eq (real x) (SInt 0) = true -> n < 0 ->
  pow libm_pow x (VNum (SInt n)) = Raise ZeroDivisionError.
Proof.
  intros Hz Hn. unfold pow, py_lt. rewrite Hz.
  apply Z.ltb_lt in Hn. now rewrite Hn.
Qed.

Lemma pow_power_rule (x : Dual) (n : Z) :
  py_eq (real x) (SInt 0) && (n <? 0) = false ->
  pow libm_pow x (VNum (SInt n)) =
    (real_part ← py_pow libm_pow (real x) (SInt n);
     p ← py_pow libm_pow (real x) (SInt (n - 1));
     np ← py_mul (SInt n) p;
     dual_part ← py_mul np (dual x);
     Ok (mkDual real_part dual_part)).
Proof.
  intros H. unfold pow, py_lt. now rewrite H.
Qed.

Example pow_two_one_cubed :
  pow libm_pow (mkDual (SInt 2) (SInt 1)) (VNum (SInt 3)) =
  Ok (mkDual (SInt 8) (SInt 12)).
Proof. reflexivity. Qed.

(** C4: where the code departs from the claim.  On a zero real part the
    exponent 0 (which is not negative) raises [ZeroDivisionError] as every
    negative exponent does: the derivative's factor [a ** (n - 1)] is then
    [0 ** -1]. *)
Theorem pow_zero_base_raises (x : Dual) (n : Z) :
  py_eq (real x) (SInt 0) = true -> n <= 0 ->
  pow libm_pow x (VNum (SInt n)) = Raise ZeroDivisionError.
Proof.
  intros Hz Hn.
  destruct (Z.eq_dec n 0) as [-> | Hne]; [| apply pow_guard; [assumption | lia]].
  destruct x as [[z | g] b]; cbn [real] in Hz.
  - apply Z.eqb_eq in Hz. subst z. reflexivity.
  - rewrite py_eq_float_zero in Hz.
    destruct (float_eq_zero_cases g Hz) as [-> | ->]; reflexivity.
Qed.

(** A power with an int exponent raises [ZeroDivisionError] only on a zero
    base with a negative exponent. *)
Lemma py_pow_ZDE (a : scalar) (n : Z) :
  py_pow libm_pow a (SInt n) = Raise ZeroDivisionError ->
  py_eq a (SInt 0) = true /\ n < 0.
Proof.
  destruct a as [z | v]; unfold py_pow; cbn [to_float].
  - destruct (Z.leb_spec 0 n) as [Hn | Hn]; [discriminate |].
    pose proof (float_of_Z_not_ZDE z) as Hz.
    pose proof (float_of_Z_not_ZDE n) as Hw.
    destruct (float_of_Z z) as [v | e |] eqn:Ez; cbn [mbind result_bind];
      [| congruence | discriminate].
    destruct (float_of_Z n) as [w | e |] eqn:En; cbn [mbind result_bind];
      [| congruence | discriminate].
    intros H. apply float_pow_ZDE in H as [Hv _].
    split; [| assumption].
    cbn [py_eq]. now rewrite <- (float_of_Z_eq_zero z v Ez).
  - pose proof (float_of_Z_not_ZDE n) as Hw.
    cbn [mbind result_bind].
    destruct (float_of_Z n) as [w | e |] eqn:En; cbn [mbind result_bind];
      [| congruence | discriminate].
    intros H. apply float_pow_ZDE in H as [Hv Hlt].
    split; [now rewrite py_eq_float_zero |].
    destruct (Z.lt_trichotomy n 0) as [Hn | [-> | Hn]]; [assumption | |].
    + injection En as <-. discriminate Hlt.
    + rewrite (float_of_Z_pos_not_neg n w Hn En) in Hlt. discriminate Hlt.
Qed.

(** [pow] raises [ZeroDivisionError] on no other input: the real part is
    then zero and the exponent is not positive. *)
Theorem pow_raises_only_zero_base (x : Dual) (n : Z) :
  pow libm_pow x (VNum (SInt n)) = Raise ZeroDivisionError ->
  py_eq (real x) (SInt 0) = true /\ n <= 0.
Proof.
  unfold pow.
  destruct (py_eq (real x) (SInt 0) && py_lt (SInt n) (SInt 0)) eqn:G.
  - intros _. apply andb_prop in G as [Hz Hn].
    cbn [py_lt] in Hn. apply Z.ltb_lt in Hn. split; [assumption | lia].
  - intros H.
    destruct (py_pow libm_pow (real x) (SInt n)) as [rp | e |] eqn:E1;
      cbn [mbind result_bind] in H;
      [| injection H as ->; apply py_pow_ZDE in E1 as [Hz Hn];
         split; [assumption | lia]
       | discriminate H].
    cbn [py_sub mbind result_bind] in H.
    destruct (py_pow libm_pow (real x) (SInt (n - 1))) as [p | e |] eqn:E2;
      cbn [mbind result_bind] in H;
      [| injection H as ->; apply py_pow_ZDE in E2 as [Hz Hn];
         split; [assumption | lia]
       | discriminate H].
    zde_step H; [| now apply (py_mul_not_ZDE (SInt n) p)].
    zde_step H; [discriminate H |].
    eapply py_mul_not_ZDE; eassumption.
Qed.

(** ** The in-place operators *)

(** Running one statement of a method body. *)
Lemma run_get_real {A} (h : heap) (l : loc) (d : Dual) (k : scalar -> M A) :
  h !! l = Some d -> bindM (get_real l) k h = k (real d) h.
Proof. intros H. unfold bindM, get_real. now rewrite H. Qed.

Lemma run_get_dual {A} (h : heap) (l : loc) (d : Dual) (k : scalar -> M A) :
  h !! l = Some d -> bindM (get_dual l) k h = k (dual d) h.
Proof. intros H. unfold bindM, get_dual. now rewrite H. Qed.

Lemma run_set_real {A} (h : heap) (l : loc) (d : Dual) (v : scalar) (k : unit -> M A) :
  h !! l = Some d ->
  bindM (set_real l v) k h = k tt (<[l := mkDual v (dual d)]> h).
Proof. intros H. unfold bindM, set_real. now rewrite H. Qed.

Lemma run_set_dual {A} (h : heap) (l : loc) (d : Dual) (v : scalar) (k : unit -> M A) :
  h !! l = Some d ->
  bindM (set_dual l v) k h = k tt (<[l := mkDual (real d) v]> h).
Proof. intros H. unfold bindM, set_dual. now rewrite H. Qed.

Lemma run_get_real_None {A} (h : heap) (l : loc) (k : scalar -> M A) :
  h !! l = None -> bindM (get_real l) k h = (Unmodelled, h).
Proof. intros H. unfold bindM, get_real. now rewrite H. Qed.

Lemma run_eval {A B} (r : result A) (k : A -> M B) (h : heap) :
  bindM (eval r) k h =
  match r with
  | Ok a => k a h
  | Raise e => (Raise e, h)
  | Unmodelled => (Unmodelled, h)
  end.
Proof. unfold bindM, eval. now destruct r. Qed.

(** Reads and writes of attributes, in a store where the objects read are
    known. *)
Ltac run_attr :=
  first
    [ erewrite run_get_real by (first [eassumption | apply lookup_insert_eq])
    | erewrite run_get_dual by (first [eassumption | apply lookup_insert_eq])
    | erewrite run_set_real by (first [eassumption | apply lookup_insert_eq])
    | erewrite run_set_dual by (first [eassumption | apply lookup_insert_eq]) ].

(** An operator application: both of its outcomes. *)
Ltac run_op :=
  rewrite run_eval;
  match goal with
  | |- context [match ?r with Ok _ => _ | Raise _ => _ | Unmodelled => _ end] =>
      destruct r as [? | ? |] eqn:?
  end;
  cbn [mbind result_bind fmap result_fmap].

Lemma fetch_ref (h : heap) (o : loc) (v : value) :
  fetch h (ARef o) = Some v -> exists y, h !! o = Some y /\ v = VDual y.
Proof.
  unfold fetch. destruct (h !! o) as [y |]; [| discriminate].
  intros [= <-]. now exists y.
Qed.

Lemma imul_success (h : heap) (self : loc) (other : arg) (x r : Dual) (v : value) :
  h !! self = Some x -> fetch h other = Some v ->
  __mul__ x v = Ok r ->
  __imul__ self other h = (Ok (ARef self), <[self := r]> h).
Proof.
  intros Hx Hv Hr. destruct other as [s | o].
  - injection Hv as <-. unfold __mul__ in Hr. unfold __imul__.
    run_attr. run_op; cbn [mbind result_bind] in Hr; try discriminate Hr.
    run_attr. run_attr. cbn [dual].
    run_op; cbn [mbind result_bind] in Hr; try discriminate Hr.
    run_attr. injection Hr as <-.
    unfold retM. cbn [real]. now rewrite insert_insert_eq.
  - apply fetch_ref in Hv as (y & Hy & ->).
    unfold __mul__ in Hr. unfold __imul__.
    do 2 run_attr. run_op; cbn [mbind result_bind] in Hr; try discriminate Hr.
    do 2 run_attr. run_op; cbn [mbind result_bind] in Hr; try discriminate Hr.
    do 2 run_attr. run_op; cbn [mbind result_bind] in Hr; try discriminate Hr.
    run_op; cbn [mbind result_bind] in Hr; try discriminate Hr.
    do 2 run_attr. injection Hr as <-.
    unfold retM. cbn [real]. now rewrite insert_insert_eq.
Qed.

Lemma imul_outcome (h : heap) (self : loc) (other : arg) (x : Dual) (v : value) :
  h !! self = Some x -> fetch h other = Some v ->
  fst (__imul__ self other h) = (fun _ => ARef self) <$> __mul__ x v.
Proof.
  intros Hx Hv. destruct other as [s | o].
  - injection Hv as <-. unfold __mul__, __imul__.
    run_attr. run_op; [| reflexivity | reflexivity].
    run_attr. run_attr. cbn [dual].
    run_op; [| reflexivity | reflexivity].
    run_attr. reflexivity.
  - apply fetch_ref in Hv as (y & Hy & ->).
    unfold __mul__, __imul__.
    do 2 run_attr. run_op; [| reflexivity | reflexivity].
    do 2 run_attr. run_op; [| reflexivity | reflexivity].
    do 2 run_attr. run_op; [| reflexivity | reflexivity].
    run_op; [| reflexivity | reflexivity].
    do 2 run_attr. reflexivity.
Qed.

Lemma itruediv_success (h : heap) (self : loc) (other : arg) (x r : Dual) (v : value) :
  h !! self = Some x -> fetch h other = Some v ->
  __truediv__ libm_pow x v = Ok r ->
  __itruediv__ libm_pow self other h = (Ok (ARef self), <[self := r]> h).
Proof.
  intros Hx Hv Hr. destruct other as [s | o].
  - injection Hv as <-. unfold __truediv__ in Hr. unfold __itruediv__.
    destruct (py_eq s (SInt 0)); [discriminate Hr |].
    run_attr. run_op; cbn [mbind result_bind] in Hr; try discriminate Hr.
    run_attr. run_attr. cbn [dual].
    run_op; cbn [mbind result_bind] in Hr; try discriminate Hr.
    run_attr. injection Hr as <-.
    unfold retM. cbn [real]. now rewrite insert_insert_eq.
  - apply fetch_ref in Hv as (y & Hy & ->).
    unfold __truediv__ in Hr. unfold __itruediv__.
    run_attr. destruct (py_eq (real y) (SInt 0)); [discriminate Hr |].
    do 2 run_attr. run_op; cbn [mbind result_bind] in Hr; try discriminate Hr.
    do 2 run_attr. run_op; cbn [mbind result_bind] in Hr; try discriminate Hr.
    do 2 run_attr. run_op; cbn [mbind result_bind] in Hr; try discriminate Hr.
    run_op; cbn [mbind result_bind] in Hr; try discriminate Hr.
    run_attr. run_op; cbn [mbind result_bind] in Hr; try discriminate Hr.
    run_op; cbn [mbind result_bind] in Hr; try discriminate Hr.
    do 2 run_attr. injection Hr as <-.
    unfold retM. cbn [real]. now rewrite insert_insert_eq.
Qed.

Lemma itruediv_outcome (h : heap) (self : loc) (other : arg) (x : Dual) (v : value) :
  h !! self = Some x -> fetch h other = Some v ->
  fst (__itruediv__ libm_pow self other h) =
  (fun _ => ARef self) <$> __truediv__ libm_pow x v.
Proof.
  intros Hx Hv. destruct other as [s | o].
  - injection Hv as <-. unfold __truediv__, __itruediv__.
    destruct (py_eq s (SInt 0)); [reflexivity |].
    run_attr. run_op; [| reflexivity | reflexivity].
    run_attr. run_attr. cbn [dual].
    run_op; [| reflexivity | reflexivity].
    run_attr. reflexivity.
  - apply fetch_ref in Hv as (y & Hy & ->).
    unfold __truediv__, __itruediv__.
    run_attr. destruct (py_eq (real y) (SInt 0)); [reflexivity |].
    do 2 run_attr. run_op; [| reflexivity | reflexivity].
    do 2 run_attr. run_op; [| reflexivity | reflexivity].
    do 2 run_attr. run_op; [| reflexivity | reflexivity].
    run_op; [| reflexivity | reflexivity].
    run_attr. run_op; [| reflexivity | reflexivity].
    run_op; [| reflexivity | reflexivity].
    do 2 run_attr. reflexivity.
Qed.

(** C6. [x *= y] and, where the division is defined, [x /= y] leave in [x]
    the fields of the non-mutating [x * y] and [x / y] computed from the
    values [x] had before: the statement succeeds exactly when the
    expression does, raises what the expression raises, and on success
    the receiver holds the expression's result.  [y] is a number or any
    dual number of the store, [x] itself included.  On float fields
    [x *= y] always succeeds, with the product rule's two parts. *)
Theorem inplace_agrees (h : heap) (self : loc) (other : arg) (x : Dual) (v : value) :
  h !! self = Some x -> fetch h other = Some v ->
  (fst (__imul__ self other h) = (fun _ => ARef self) <$> __mul__ x v /\
   forall r, __mul__ x v = Ok r ->
     __imul__ self other h = (Ok (ARef self), <[self := r]> h)) /\
  (fst (__itruediv__ libm_pow self other h) =
     (fun _ => ARef self) <$> __truediv__ libm_pow x v /\
   forall r, __truediv__ libm_pow x v = Ok r ->
     __itruediv__ libm_pow self other h = (Ok (ARef self), <[self := r]> h)) /\
  (forall a b c d : float,
   x = mkDual (SFloat a) (SFloat b) -> v = VDual (mkDual (SFloat c) (SFloat d)) ->
   __imul__ self other h =
     (Ok (ARef self),
      <[self := mkDual (SFloat (a * c)) (SFloat (a * d + b * c))]> h)).
Proof.
  intros Hx Hv. split; [split | split; [split |]].
  - now apply imul_outcome.
  - intros r Hr. now apply imul_success with (x := x) (v := v).
  - now apply itruediv_outcome.
  - intros r Hr. now apply itruediv_success with (x := x) (v := v).
  - intros a b c d -> ->.
    now apply imul_success
      with (x := mkDual (SFloat a) (SFloat b))
           (v := VDual (mkDual (SFloat c) (SFloat d))).
Qed.

(** The store after a [/=] that raised [ZeroDivisionError] is the store
    before it. *)
Lemma itruediv_ZDE_store (h : heap) (self : loc) (other : arg) :
  match __itruediv__ libm_pow self other h with
  | (Raise ZeroDivisionError, h') => h' = h
  | _ => True
  end.
Proof.
  unfold __itruediv__. destruct other as [s | o].
  - destruct (py_eq s (SInt 0)) eqn:Hs; [reflexivity |].
    destruct (h !! self) as [x |] eqn:Hx;
      [| now rewrite run_get_real_None].
    run_attr. run_op; [| now destruct e | exact I].
    run_attr. run_attr. cbn [dual].
    run_op; [| | exact I].
    + run_attr. exact I.
    + destruct e; try exact I.
      now destruct (py_truediv_nonzero_not_ZDE (dual x) s Hs).
  - destruct (h !! o) as [y |] eqn:Hy;
      [| now rewrite run_get_real_None].
    run_attr. destruct (py_eq (real y) (SInt 0)); [reflexivity |].
    destruct (h !! self) as [x |] eqn:Hx;
      [| now rewrite run_get_real_None].
    do 2 run_attr. run_op; [| now destruct e | exact I].
    do 2 run_attr. run_op; [| now destruct e | exact I].
    do 2 run_attr. run_op; [| now destruct e | exact I].
    run_op; [| now destruct e | exact I].
    run_attr. run_op; [| now destruct e | exact I].
    run_op; [| now destruct e | exact I].
    do 2 run_attr. exact I.
Qed.

(** C10. [x /= y] is atomic on its error: when [y] is a dual number with a
    zero real part, or the number zero, it raises [ZeroDivisionError] and
    leaves the store as it was; and whenever it raises
    [ZeroDivisionError], for whatever reason, [x]'s fields (and every
    other object's) are exactly as before. *)
Theorem itruediv_atomic (h : heap) (self : loc) (other : arg) :
  (forall y, fetch h other = Some (VDual y) -> py_eq (real y) (SInt 0) = true ->
   __itruediv__ libm_pow self other h = (Raise ZeroDivisionError, h)) /\
  (forall s, other = ANum s -> py_eq s (SInt 0) = true ->
   __itruediv__ libm_pow self other h = (Raise ZeroDivisionError, h)) /\
  (forall h', __itruediv__ libm_pow self other h = (Raise ZeroDivisionError, h') ->
   h' = h).
Proof.
  split; [| split].
  - intros y Hv Hz. destruct other as [s | o]; [discriminate Hv |].
    apply fetch_ref in Hv as (y' & Hy & [= <-]).
    unfold __itruediv__. run_attr. now rewrite Hz.
  - intros s -> Hz. unfold __itruediv__. now rewrite Hz.
  - intros h' H. pose proof (itruediv_ZDE_store h self other) as Hs.
    now rewrite H in Hs.
Qed.

(** Closes a goal saying that a raised exception is not a [TypeError],
    from the equation recording which operator raised it. *)
Ltac not_type_error :=
  let H := fresh in
  intros H; cbn in H; injection H as ->;
  match goal with
  | E : _ = Raise TypeError |- _ =>
      first [ apply py_pow_not_TypeError in E
            | apply py_sub_not_TypeError in E
            | apply py_mul_not_TypeError in E ];
      exact E
  end.

(** C5: where the code departs from the claim.  [**=] rejects a dual
    number as exponent with a [TypeError] before anything is assigned, but
    it has no test for a non-integer exponent: with a number as exponent it
    never raises [TypeError], whatever the number.  [x **= 0.5] on
    [x = Dual(4.0, 1.0)] assigns both fields from the C library's powers
    (or raises [OverflowError] should one of them be infinite). *)
Theorem ipow_rejects_only_dual :
  (forall (h : heap) (self o : loc),
     __ipow__ libm_pow self (ARef o) h = (Raise TypeError, h)) /\
  (forall (h : heap) (self : loc) (s : scalar),
     fst (__ipow__ libm_pow self (ANum s) h) <> Raise TypeError) /\
  (let p := libm_pow 4 0.5 in
   let q := libm_pow 4 (-0.5) in
   __ipow__ libm_pow 1%positive (ANum (SFloat 0.5))
     {[ 1%positive := mkDual (SFloat 4) (SFloat 1) ]} =
   if is_infinity p || is_infinity q
   then (Raise OverflowError, {[ 1%positive := mkDual (SFloat 4) (SFloat 1) ]})
   else (Ok (ARef 1%positive),
         {[ 1%positive := mkDual (SFloat p) (SFloat (0.5 * q * 1)) ]})).
Proof.
  split; [| split].
  - reflexivity.
  - intros h self s. unfold __ipow__.
    destruct (h !! self) as [x |] eqn:Hx;
      [| now rewrite run_get_real_None].
    run_attr. run_op; [| not_type_error | discriminate].
    run_attr. run_op; [| not_type_error | discriminate].
    run_op; [| not_type_error | discriminate].
    run_op; [| not_type_error | discriminate].
    run_attr. run_op; [| not_type_error | discriminate].
    do 2 run_attr. discriminate.
  - intros p q. subst p q.
    unfold __ipow__, bindM, get_real, get_dual, set_real, set_dual, eval, retM.
    rewrite !lookup_singleton_eq. cbn [real dual].
    change (py_pow libm_pow (SFloat 4) (SFloat 0.5))
      with (if is_infinity (libm_pow 4 0.5) then @Raise scalar OverflowError
            else Ok (SFloat (libm_pow 4 0.5))).
    destruct (is_infinity (libm_pow 4 0.5)); [reflexivity |].
    change (py_sub (SFloat 0.5) (SInt 1)) with (Ok (SFloat (-0.5))).
    cbv iota beta.
    change (py_pow libm_pow (SFloat 4) (SFloat (-0.5)))
      with (if is_infinity (libm_pow 4 (-0.5)) then @Raise scalar OverflowError
            else Ok (SFloat (libm_pow 4 (-0.5)))).
    destruct (is_infinity (libm_pow 4 (-0.5))); [reflexivity |].
    cbn [orb py_mul float_binop to_float mbind result_bind].
    rewrite !lookup_insert_eq. cbn [real dual].
    now rewrite insert_insert_eq, !insert_singleton_eq.
Qed.

(** ** Further properties *)

(** Addition: the parts add; a number adds to the real part alone and
    leaves the dual part as it is; the reflected addition is the same
    function.  [Dual(2,1) + Dual(3,2)] is [Dual(5,3)]. *)
Theorem add_spec :
  (forall a1 b1 a2 b2 : scalar,
     __add__ (mkDual a1 b1) (VDual (mkDual a2 b2)) =
       (r ← py_add a1 a2; d ← py_add b1 b2; Ok (mkDual r d))) /\
  (forall a b s : scalar,
     __add__ (mkDual a b) (VNum s) = (r ← py_add a s; Ok (mkDual r b))) /\
  (forall (x : Dual) (v : value), __radd__ x v = __add__ x v) /\
  (forall a1 b1 a2 b2 : float,
     __add__ (mkDual (SFloat a1) (SFloat b1)) (VDual (mkDual (SFloat a2) (SFloat b2))) =
       Ok (mkDual (SFloat (a1 + a2)) (SFloat (b1 + b2)))) /\
  __add__ (mkDual (SInt 2) (SInt 1)) (VDual (mkDual (SInt 3) (SInt 2))) =
    Ok (mkDual (SInt 5) (SInt 3)).
Proof.
  repeat split; intros; reflexivity.
Qed.

(** Division by a number: [ZeroDivisionError] exactly when the number is
    zero; otherwise both parts are divided by it. *)
Theorem truediv_number_spec (x : Dual) (s : scalar) :
  (__truediv__ libm_pow x (VNum s) = Raise ZeroDivisionError <->
   py_eq s (SInt 0) = true) /\
  (py_eq s (SInt 0) = false ->
   __truediv__ libm_pow x (VNum s) =
     (r ← py_truediv (real x) s; d ← py_truediv (dual x) s; Ok (mkDual r d))).
Proof.
  unfold __truediv__. destruct (py_eq s (SInt 0)) eqn:Hs.
  - split; [tauto | discriminate].
  - split; [| reflexivity]. split; [| discriminate].
    intros H.
    zde_step H; [| now apply (py_truediv_nonzero_not_ZDE (real x) s)].
    zde_step H; [discriminate H |].
    now apply (py_truediv_nonzero_not_ZDE (dual x) s).
Qed.

(** A float that has a quotient by [s] shows that every float has one. *)
Lemma py_truediv_float_dividend (a b : float) (s r : scalar) :
  py_truediv (SFloat a) s = Ok r ->
  exists r', py_truediv (SFloat b) s = Ok r'.
Proof.
  rewrite !py_truediv_divisor. cbn [to_float mbind result_bind].
  destruct (to_float s) as [g | e |]; cbn [mbind result_bind]; try discriminate.
  destruct (scalar_is_zero s); [discriminate |].
  intros _. eauto.
Qed.

(** On a receiver with float fields [/=] is atomic on every exception:
    whatever it raises, the store is as it was. *)
Theorem itruediv_float_receiver_atomic
    (h h' : heap) (self : loc) (other : arg) (a b : float) (e : exn) :
  h !! self = Some (mkDual (SFloat a) (SFloat b)) ->
  __itruediv__ libm_pow self other h = (Raise e, h') ->
  h' = h.
Proof.
  intros Hx. unfold __itruediv__. destruct other as [s | o].
  - destruct (py_eq s (SInt 0)) eqn:Hs; [now intros [= _ <-] |].
    run_attr. cbn [real]. run_op; [| now intros [= _ <-] | discriminate].
    run_attr. run_attr. cbn [dual].
    match goal with
    | E : py_truediv (SFloat a) s = Ok _ |- _ =>
        destruct (py_truediv_float_dividend a b s _ E) as [r' ->]
    end.
    rewrite run_eval. run_attr. discriminate.
  - destruct (h !! o) as [y |] eqn:Hy;
      [| rewrite run_get_real_None by assumption; discriminate].
    run_attr. destruct (py_eq (real y) (SInt 0)); [now intros [= _ <-] |].
    do 2 run_attr. run_op; [| now intros [= _ <-] | discriminate].
    do 2 run_attr. run_op; [| now intros [= _ <-] | discriminate].
    do 2 run_attr. run_op; [| now intros [= _ <-] | discriminate].
    run_op; [| now intros [= _ <-] | discriminate].
    run_attr. run_op; [| now intros [= _ <-] | discriminate].
    run_op; [| now intros [= _ <-] | discriminate].
    do 2 run_attr. discriminate.
Qed.

(** Subtraction: the parts subtract; a number is subtracted from the real
    part alone; [s - x] for a number [s] is [(s - real, -dual)]. *)
Theorem sub_spec :
  (forall a1 b1 a2 b2 : scalar,
     __sub__ (mkDual a1 b1) (VDual (mkDual a2 b2)) =
       (r ← py_sub a1 a2; d ← py_sub b1 b2; Ok (mkDual r d))) /\
  (forall a b s : scalar,
     __sub__ (mkDual a b) (VNum s) = (r ← py_sub a s; Ok (mkDual r b))) /\
  (forall a b s : scalar,
     __rsub__ (mkDual a b) s = (r ← py_sub s a; Ok (mkDual r (py_neg b)))) /\
  (forall a b s : float,
     __rsub__ (mkDual (SFloat a) (SFloat b)) (SFloat s) =
       Ok (mkDual (SFloat (s - a)) (SFloat (- b)))).
Proof.
  repeat split; intros; reflexivity.
Qed.

Lemma Prim2SF_infinity : Prim2SF infinity = S754_infinity false.
Proof. reflexivity. Qed.

(** A finite float and its negation add up to [0.0]. *)
Lemma float_add_opp (a : float) : is_finite a = true -> (a + - a)%float = 0%float.
Proof.
  unfold is_finite, is_nan, is_infinity. intros Hfin.
  apply negb_true_iff, orb_false_iff in Hfin as [Hnan Hinf].
  apply negb_false_iff in Hnan.
  rewrite FloatAxioms.eqb_spec in Hnan.
  rewrite FloatAxioms.eqb_spec, FloatAxioms.abs_spec, Prim2SF_infinity in Hinf.
  apply Prim2SF_inj.
  rewrite FloatAxioms.add_spec, FloatAxioms.opp_spec, Prim2SF_zero.
  destruct (Prim2SF a) as [[] | [] | | s m e];
    try reflexivity; try discriminate Hnan; try discriminate Hinf.
  unfold SF64add, SFadd, SFopp.
  rewrite Z.min_id. unfold shl_align. rewrite Z.sub_diag. cbn [fst].
  replace (cond_Zopp s (Z.pos m) + cond_Zopp (negb s) (Z.pos m)) with 0
    by (destruct s; cbn [cond_Zopp negb]; lia).
  reflexivity.
Qed.

(** [x + (-x)] has both parts zero, on int fields and on finite float
    fields. *)
Theorem neg_cancels :
  (forall a b : scalar,
     __neg__ (mkDual a b) = mkDual (py_neg a) (py_neg b)) /\
  (forall a b : Z,
     __add__ (mkDual (SInt a) (SInt b)) (VDual (__neg__ (mkDual (SInt a) (SInt b)))) =
       Ok (mkDual (SInt 0) (SInt 0))) /\
  (forall a b : float,
     is_finite a = true -> is_finite b = true ->
     __add__ (mkDual (SFloat a) (SFloat b))
             (VDual (__neg__ (mkDual (SFloat a) (SFloat b)))) =
       Ok (mkDual (SFloat 0) (SFloat 0))).
Proof.
  split; [| split].
  - reflexivity.
  - intros a b. unfold __add__, __neg__, py_neg, py_add.
    cbn [real dual mbind result_bind].
    now rewrite !Z.add_opp_diag_r.
  - intros a b Ha Hb. unfold __add__, __neg__, py_neg, py_add, float_binop.
    cbn [real dual to_float mbind result_bind].
    now rewrite !float_add_opp.
Qed.

(** [x += y] leaves in [x] the fields of [x + y] computed from the values
    before it, also when [y] is [x] itself. *)
Theorem iadd_agrees (h : heap) (self : loc) (other : arg) (x r : Dual) (v : value) :
  h !! self = Some x -> fetch h other = Some v ->
  __add__ x v = Ok r ->
  __iadd__ self other h = (Ok (ARef self), <[self := r]> h).
Proof.
  intros Hx Hv Hr. destruct other as [s | o].
  - injection Hv as <-. unfold __add__ in Hr. unfold __iadd__.
    run_attr. run_op; cbn [mbind result_bind] in Hr; try discriminate Hr.
    run_attr. injection Hr as <-. reflexivity.
  - apply fetch_ref in Hv as (y & Hy & ->).
    unfold __add__ in Hr. unfold __iadd__.
    do 2 run_attr. run_op; cbn [mbind result_bind] in Hr; try discriminate Hr.
    do 2 run_attr. cbn [dual].
    destruct (decide (self = o)) as [<- | Hne].
    + run_attr. cbn [dual].
      assert (y = x) as -> by congruence.
      run_op; cbn [mbind result_bind] in Hr; try discriminate Hr.
      run_attr. injection Hr as <-.
      unfold retM. cbn [real]. now rewrite insert_insert_eq.
    + erewrite run_get_dual by (rewrite lookup_insert_ne; eassumption).
      run_op; cbn [mbind result_bind] in Hr; try discriminate Hr.
      run_attr. injection Hr as <-.
      unfold retM. cbn [real]. now rewrite insert_insert_eq.
Qed.

(** ** Commutativity *)


Lemma float_add_comm (a b : float) : (a + b)%float = (b + a)%float.
Proof.
  apply Prim2SF_inj. rewrite !FloatAxioms.add_spec.
  unfold SF64add, SFadd.
  destruct (Prim2SF a) as [sa | sa | | sa ma ea],
           (Prim2SF b) as [sb | sb | | sb mb eb];
    try reflexivity; try (now destruct sa, sb).
  now rewrite Z.min_comm, Z.add_comm.
Qed.

(** A conversion to float has a value or raises [OverflowError]. *)
Lemma to_float_outcome (x : scalar) :
  (exists g, to_float x = Ok g) \/ to_float x = Raise OverflowError.
Proof.
  destruct x as [z | g]; [| left; now exists g].
  cbn [to_float]. unfold float_of_Z.
  destruct (binary_normalize prec emax z 0 false); eauto.
Qed.

Lemma float_binop_outcome op (x y : scalar) :
  (exists r, float_binop op x y = Ok r) \/ float_binop op x y = Raise OverflowError.
Proof.
  unfold float_binop.
  destruct (to_float_outcome x) as [[a ->] | ->]; [| now right].
  destruct (to_float_outcome y) as [[b ->] | ->]; [| now right].
  left. eexists. reflexivity.
Qed.




Lemma py_mul_outcome (x y : scalar) :
  (exists r, py_mul x y = Ok r) \/ py_mul x y = Raise OverflowError.
Proof.
  destruct x as [a | u], y as [b | v]; unfold py_mul;
    try apply float_binop_outcome.
  left. eexists. reflexivity.
Qed.

Lemma py_add_outcome (x y : scalar) :
  (exists r, py_add x y = Ok r) \/ py_add x y = Raise OverflowError.
Proof.
  destruct x as [a | u], y as [b | v]; unfold py_add;
    try apply float_binop_outcome.
  left. eexists. reflexivity.
Qed.

Lemma py_sub_outcome (x y : scalar) :
  (exists r, py_sub x y = Ok r) \/ py_sub x y = Raise OverflowError.
Proof.
  destruct x as [a | u], y as [b | v]; unfold py_sub;
    try apply float_binop_outcome.
  left. eexists. reflexivity.
Qed.



(** ** Int fields *)

(** On int fields the operators are exact and never raise, and the dual
    numbers form a commutative ring: the product is associative and
    distributes over the sum. *)
Theorem int_ring_laws (a1 b1 a2 b2 a3 b3 : Z) :
  let x := mkDual (SInt a1) (SInt b1) in
  let y := mkDual (SInt a2) (SInt b2) in
  let z := mkDual (SInt a3) (SInt b3) in
  (xy ← __mul__ x (VDual y); __mul__ xy (VDual z)) =
    Ok (mkDual (SInt (a1 * a2 * a3)) (SInt (a1 * a2 * b3 + a1 * b2 * a3 + b1 * a2 * a3))) /\
  (yz ← __mul__ y (VDual z); __mul__ x (VDual yz)) =
    Ok (mkDual (SInt (a1 * a2 * a3)) (SInt (a1 * a2 * b3 + a1 * b2 * a3 + b1 * a2 * a3))) /\
  (s ← __add__ y (VDual z); __mul__ x (VDual s)) =
    (xy ← __mul__ x (VDual y); xz ← __mul__ x (VDual z); __add__ xy (VDual xz)).
Proof.
  cbn. repeat split; do 3 f_equal; ring.
Qed.

Lemma pow_int_fields (a b n : Z) :
  1 <= n ->
  pow libm_pow (mkDual (SInt a) (SInt b)) (VNum (SInt n)) =
  Ok (mkDual (SInt (a ^ n)) (SInt (n * a ^ (n - 1) * b))).
Proof.
  intros Hn. unfold pow, py_lt, py_pow, py_sub. cbn [real dual].
  destruct (Z.ltb_spec n 0) as [? | _]; [lia |].
  rewrite andb_false_r.
  destruct (Z.leb_spec 0 n) as [_ | ?]; [| lia].
  cbn [mbind result_bind].
  destruct (Z.leb_spec 0 (n - 1)) as [_ | ?]; [| lia].
  reflexivity.
Qed.

(** On int fields [pow] is the repeated product: [x.pow(1)] is [x], and
    [x.pow(n + 1)] is [x.pow(n) * x] for every [n >= 1]. *)
Theorem pow_succ_int (a b n : Z) :
  1 <= n ->
  let x := mkDual (SInt a) (SInt b) in
  pow libm_pow x (VNum (SInt 1)) = Ok x /\
  pow libm_pow x (VNum (SInt (n + 1))) =
    (p ← pow libm_pow x (VNum (SInt n)); __mul__ p (VDual x)).
Proof.
  intros Hn x. subst x. split.
  - rewrite pow_int_fields by lia.
    now rewrite Z.pow_1_r, Z.sub_diag, Z.pow_0_r, !Z.mul_1_l.
  - rewrite !pow_int_fields by lia.
    unfold __mul__, py_mul, py_add. cbn [real dual mbind result_bind].
    replace (n + 1 - 1) with n by lia.
    assert (Hp : a ^ n = a ^ (n - 1) * a).
    { replace n with (n - 1 + 1) at 1 by lia.
      now rewrite Z.pow_add_r, Z.pow_1_r by lia. }
    rewrite Z.pow_add_r, Z.pow_1_r by lia.
    do 3 f_equal. rewrite Hp. ring.
Qed.

(** The documentation's [f(x) = x*x + 3*x + 5] on any dual number with int
    fields: the real part is [f(a)] and the dual part is [f'(a) * b],
    with [f'(a) = 2a + 3]; on float fields the same sums and products in
    floating point, in the order the operators compute them. *)
Theorem f_derivative :
  (forall a b : Z,
     f (VDual (mkDual (SInt a) (SInt b))) =
       Ok (VDual (mkDual (SInt (a * a + 3 * a + 5)) (SInt ((2 * a + 3) * b))))) /\
  (forall a b : float,
     f (VDual (mkDual (SFloat a) (SFloat b))) =
       Ok (VDual (mkDual (SFloat (a * a + a * 3 + 5)) (SFloat (a * b + b * a + b * 3))))).
Proof.
  split; intros a b.
  - cbn. do 4 f_equal; ring.
  - reflexivity.
Qed.

(** ** Subtraction as addition of the negation *)






Example sub_zero_sign :
  __sub__ (mkDual (SFloat (-0)) (SInt 1)) (VDual (mkDual (SInt 0) (SInt 0))) =
    Ok (mkDual (SFloat (-0)) (SInt 1)) /\
  __add__ (mkDual (SFloat (-0)) (SInt 1)) (VDual (__neg__ (mkDual (SInt 0) (SInt 0)))) =
    Ok (mkDual (SFloat 0) (SInt 1)).
Proof. split; reflexivity. Qed.

(** ** Equality is symmetric *)

Lemma SFcompare_antisym (x y : spec_float) :
  SFcompare y x = option_map CompOpp (SFcompare x y).
Proof.
  destruct x as [sx | sx | | sx mx ex], y as [sy | sy | | sy my ey];
    try reflexivity; try (now destruct sx); try (now destruct sy);
    try (now destruct sx, sy).
  cbn [SFcompare option_map].
  change (PosDef.Pos.compare_cont Eq my mx) with (my ?= mx)%positive.
  change (PosDef.Pos.compare_cont Eq mx my) with (mx ?= my)%positive.
  rewrite (Z.compare_antisym ex ey), (Pos.compare_antisym mx my).
  destruct sx, sy; try reflexivity;
    destruct (ex ?= ey); try reflexivity;
    cbn [CompOpp]; now destruct (mx ?= my)%positive.
Qed.

Lemma float_eqb_sym (u v : float) : (u =? v)%float = (v =? u)%float.
Proof.
  rewrite !FloatAxioms.eqb_spec. unfold SFeqb.
  rewrite (SFcompare_antisym (Prim2SF u) (Prim2SF v)).
  now destruct (SFcompare (Prim2SF u) (Prim2SF v)) as [[] |].
Qed.

Lemma py_eq_sym (x y : scalar) : py_eq x y = py_eq y x.
Proof.
  destruct x as [a | u], y as [b | v]; cbn [py_eq]; try reflexivity.
  - apply Z.eqb_sym.
  - apply float_eqb_sym.
Qed.

(** [==] is symmetric, on dual numbers of any fields, although it is not
    reflexive (a NaN field is unequal to itself): [x == y] and [y == x]
    are the same truth value. *)
Theorem dual_eq_sym (x y : Dual) : __eq__ x (VDual y) = __eq__ y (VDual x).
Proof.
  unfold __eq__.
  now rewrite (py_eq_sym (real x) (real y)), (py_eq_sym (dual x) (dual y)).
Qed.

(** ** Division gives floats *)

Lemma py_truediv_float_result (x y r : scalar) :
  py_truediv x y = Ok r -> exists g, r = SFloat g.
Proof.
  unfold py_truediv.
  destruct x as [a | u], y as [b | v]; cbn [to_float].
  - destruct (b =? 0); [discriminate |].
    destruct (long_true_divide a b); cbn [fmap result_fmap]; try discriminate.
    intros [= <-]. eauto.
  - destruct (float_of_Z a); cbn [mbind result_bind]; try discriminate.
    destruct (v =? 0)%float; [discriminate |]. intros [= <-]. eauto.
  - cbn [mbind result_bind].
    destruct (float_of_Z b) as [w | |]; cbn [mbind result_bind]; try discriminate.
    destruct (w =? 0)%float; [discriminate |]. intros [= <-]. eauto.
  - cbn [mbind result_bind].
    destruct (v =? 0)%float; [discriminate |]. intros [= <-]. eauto.
Qed.

(** Peels one step off a chain of operations that is known to have a
    value. *)
Ltac ok_step H :=
  match type of H with
  | context [mbind _ ?m] =>
      let E := fresh "E" in
      destruct m as [? | ? |] eqn:E;
      cbn [mbind result_bind] in H;
      [ | discriminate H | discriminate H ]
  end.

(** A quotient has float fields, whatever the fields of the operands:
    [x / y], [x / s], [s / x] and [x.inverse()] never return an int
    field, and [Dual(4, 2) / 2] is [Dual(2.0, 1.0)]. *)
Theorem division_gives_floats (x r : Dual) :
  (forall v, __truediv__ libm_pow x v = Ok r ->
     exists g1 g2, r = mkDual (SFloat g1) (SFloat g2)) /\
  (forall s, __rtruediv__ libm_pow x s = Ok r ->
     exists g1 g2, r = mkDual (SFloat g1) (SFloat g2)) /\
  (inverse libm_pow x = Ok r ->
     exists g1 g2, r = mkDual (SFloat g1) (SFloat g2)) /\
  __truediv__ libm_pow (mkDual (SInt 4) (SInt 2)) (VNum (SInt 2)) =
    Ok (mkDual (SFloat 2) (SFloat 1)).
Proof.
  split; [| split; [| split]].
  - intros [s | y] H; unfold __truediv__ in H.
    + destruct (py_eq s (SInt 0)); [discriminate H |].
      ok_step H. ok_step H. injection H as <-.
      apply py_truediv_float_result in E as [g1 ->].
      apply py_truediv_float_result in E0 as [g2 ->]. eauto.
    + destruct (py_eq (real y) (SInt 0)); [discriminate H |].
      do 6 ok_step H. injection H as <-.
      apply py_truediv_float_result in E as [g1 ->].
      apply py_truediv_float_result in E4 as [g2 ->]. eauto.
  - intros s H. unfold __rtruediv__ in H.
    destruct (py_eq (real x) (SInt 0)); [discriminate H |].
    do 4 ok_step H. injection H as <-.
    apply py_truediv_float_result in E as [g1 ->].
    apply py_truediv_float_result in E2 as [g2 ->]. eauto.
  - intros H. unfold inverse in H.
    destruct (py_eq (real x) (SInt 0)); [discriminate H |].
    do 3 ok_step H. injection H as <-.
    apply py_truediv_float_result in E as [g1 ->].
    apply py_truediv_float_result in E1 as [g2 ->]. eauto.
  - reflexivity.
Qed.

(** ** The default dual part *)

(** Adding a float zero to [y] gives a float that compares to [y] as [y]
    does to itself: [y] again, or a zero of the other sign, or a NaN. *)
Lemma float_zero_add_eqb (z y : float) :
  (z =? 0)%float = true -> (z + y =? y)%float = (y =? y)%float.
Proof.
  intros Hz. destruct (float_eq_zero_cases z Hz) as [-> | ->];
    rewrite !FloatAxioms.eqb_spec, FloatAxioms.add_spec;
    [rewrite Prim2SF_zero | change (Prim2SF (-0)) with (S754_zero true)];
    unfold SF64add, SFadd;
    destruct (Prim2SF y) as [[] | [] | | sy my ey]; reflexivity.
Qed.

(** A finite float times [0.0] is a zero. *)
Lemma float_mul_zero (a : float) :
  is_finite a = true -> (a * 0 =? 0)%float = true.
Proof.
  unfold is_finite, is_nan, is_infinity. intros Hfin.
  apply negb_true_iff, orb_false_iff in Hfin as [Hnan Hinf].
  apply negb_false_iff in Hnan.
  rewrite FloatAxioms.eqb_spec in Hnan.
  rewrite FloatAxioms.eqb_spec, FloatAxioms.abs_spec, Prim2SF_infinity in Hinf.
  rewrite FloatAxioms.eqb_spec, FloatAxioms.mul_spec, Prim2SF_zero.
  destruct (Prim2SF a) as [[] | [] | | [] m e];
    try reflexivity; try discriminate Hnan; discriminate Hinf.
Qed.

(** [Dual(s)] has the float [0.0] as its dual part.  It equals the number
    [s] whenever [s] equals itself.  On float fields it stands for [s] in
    sums and products up to [==]: [x + Dual(s)] compares to [x + s], and
    for a finite real part [x * Dual(s)] to [x * s], as that one does to
    itself.  On int fields the sum's dual part becomes a float. *)
Theorem init_default_dual :
  (forall s : scalar, __eq__ (__init__ s None) (VNum s) = py_eq s s) /\
  (forall a b s : float,
     let x := mkDual (SFloat a) (SFloat b) in
     exists p q,
       __add__ x (VDual (__init__ (SFloat s) None)) = Ok p /\
       __add__ x (VNum (SFloat s)) = Ok q /\
       __eq__ p (VDual q) = __eq__ q (VDual q)) /\
  (forall a b s : float,
     is_finite a = true ->
     let x := mkDual (SFloat a) (SFloat b) in
     exists p q,
       __mul__ x (VDual (__init__ (SFloat s) None)) = Ok p /\
       __mul__ x (VNum (SFloat s)) = Ok q /\
       __eq__ p (VDual q) = __eq__ q (VDual q)) /\
  (forall (a b s : Z) (g : float),
     float_of_Z b = Ok g ->
     __add__ (mkDual (SInt a) (SInt b)) (VDual (__init__ (SInt s) None)) =
       Ok (mkDual (SInt (a + s)) (SFloat (g + 0)))).
Proof.
  split; [| split; [| split]].
  - intros s. unfold __eq__, __init__. cbn [real dual default].
    change (py_eq (SFloat 0) (SInt 0)) with true. apply andb_true_r.
  - intros a b s x. subst x.
    exists (mkDual (SFloat (a + s)) (SFloat (b + 0))),
           (mkDual (SFloat (a + s)) (SFloat b)).
    split; [reflexivity | split; [reflexivity |]].
    unfold __eq__. cbn [real dual py_eq]. f_equal.
    rewrite float_add_comm. now apply float_zero_add_eqb.
  - intros a b s Ha x. subst x.
    exists (mkDual (SFloat (a * s)) (SFloat (a * 0 + b * s))),
           (mkDual (SFloat (a * s)) (SFloat (b * s))).
    split; [reflexivity | split; [reflexivity |]].
    unfold __eq__. cbn [real dual py_eq]. f_equal.
    apply float_zero_add_eqb. now apply float_mul_zero.
  - intros a b s g Hg. unfold __add__, __init__, py_add, float_binop.
    cbn [real dual default to_float mbind result_bind].
    now rewrite Hg.
Qed.

(** ** In-place subtraction and power *)

(** [x -= y] leaves in [x] the fields of [x - y] computed from the values
    before it, also when [y] is [x] itself.  It assigns the real part
    before it computes the dual part: when the subtraction of the real
    parts raises, nothing is assigned; when that of the dual parts
    raises, the real part has already been overwritten. *)
Theorem isub_outcome (h : heap) (self : loc) (other : arg) (x : Dual) (v : value) :
  h !! self = Some x -> fetch h other = Some v ->
  (forall r, __sub__ x v = Ok r ->
     __isub__ self other h = (Ok (ARef self), <[self := r]> h)) /\
  (forall y e, v = VDual y -> py_sub (real x) (real y) = Raise e ->
     __isub__ self other h = (Raise e, h)) /\
  (forall y r e, v = VDual y ->
     py_sub (real x) (real y) = Ok r -> py_sub (dual x) (dual y) = Raise e ->
     __isub__ self other h = (Raise e, <[self := mkDual r (dual x)]> h)).
Proof.
  intros Hx Hv. split; [| split].
  - intros r Hr. destruct other as [s | o].
    + injection Hv as <-. unfold __sub__ in Hr. unfold __isub__.
      run_attr. run_op; cbn [mbind result_bind] in Hr; try discriminate Hr.
      run_attr. injection Hr as <-. reflexivity.
    + apply fetch_ref in Hv as (y & Hy & ->).
      unfold __sub__ in Hr. unfold __isub__.
      do 2 run_attr. run_op; cbn [mbind result_bind] in Hr; try discriminate Hr.
      do 2 run_attr. cbn [dual].
      destruct (decide (self = o)) as [<- | Hne].
      * run_attr. cbn [dual].
        assert (y = x) as -> by congruence.
        run_op; cbn [mbind result_bind] in Hr; try discriminate Hr.
        run_attr. injection Hr as <-.
        unfold retM. cbn [real]. now rewrite insert_insert_eq.
      * erewrite run_get_dual by (rewrite lookup_insert_ne; eassumption).
        run_op; cbn [mbind result_bind] in Hr; try discriminate Hr.
        run_attr. injection Hr as <-.
        unfold retM. cbn [real]. now rewrite insert_insert_eq.
  - intros y e -> He. destruct other as [s | o]; [discriminate Hv |].
    apply fetch_ref in Hv as (y' & Hy & [= <-]).
    unfold __isub__. do 2 run_attr. now rewrite run_eval, He.
  - intros y r e -> Hr He. destruct other as [s | o]; [discriminate Hv |].
    apply fetch_ref in Hv as (y' & Hy & [= <-]).
    unfold __isub__. do 2 run_attr. rewrite run_eval, Hr.
    do 2 run_attr. cbn [dual].
    destruct (decide (self = o)) as [<- | Hne].
    + run_attr. cbn [dual].
      assert (y = x) as -> by congruence.
      now rewrite run_eval, He.
    + erewrite run_get_dual by (rewrite lookup_insert_ne; eassumption).
      now rewrite run_eval, He.
Qed.


(** A division has a value, or raises [ZeroDivisionError] or
    [OverflowError]. *)
Lemma py_truediv_outcome (x y : scalar) :
  (exists r, py_truediv x y = Ok r) \/
  py_truediv x y = Raise ZeroDivisionError \/ py_truediv x y = Raise OverflowError.
Proof.
  destruct x as [a | u], y as [b | v]; unfold py_truediv.
  - destruct (b =? 0); [auto |].
    unfold long_true_divide.
    destruct (Z.abs a), (Z.abs b); cbn [fmap result_fmap]; eauto.
    match goal with
    | |- context [SFdiv ?p ?e ?s ?t] => destruct (SFdiv p e s t)
    end; cbn [fmap result_fmap]; eauto.
  - destruct (to_float_outcome (SInt a)) as [[g ->] | ->]; [| auto].
    cbn [to_float mbind result_bind]. destruct (v =? 0)%float; eauto.
  - cbn [to_float mbind result_bind].
    destruct (to_float_outcome (SInt b)) as [[g Hg] | Hg];
      cbn [to_float] in Hg; rewrite Hg; cbn [mbind result_bind]; [| auto].
    destruct (g =? 0)%float; eauto.
  - cbn [to_float mbind result_bind]. destruct (v =? 0)%float; eauto.
Qed.

(** ** Sine, cosine, exponential and tangent *)

Variables libm_sin libm_cos libm_tan libm_exp : float -> float * c_errno.

(** A function of the [math] module has a value, or raises [ValueError]
    or [OverflowError]. *)
Lemma math_1_outcome func ov (x : scalar) :
  (exists r, math_1 func ov x = Ok r) \/
  math_1 func ov x = Raise ValueError \/ math_1 func ov x = Raise OverflowError.
Proof.
  unfold math_1.
  destruct (to_float_outcome x) as [[v ->] | ->]; [| auto].
  cbn [mbind result_bind].
  destruct (func v) as [r errno].
  destruct (is_nan r && negb (is_nan v)); [auto |].
  destruct (is_infinity r && is_finite v); [destruct ov; auto |].
  destruct (is_finite r); [| eauto].
  destruct errno; cbn [is_error]; eauto.
  destruct (abs r <? 1.5)%float; eauto.
Qed.

(** The dual parts are the derivatives' values times the dual part, the
    derivatives being the functions' own results: where [x.sin()] and
    [x.cos()] have values, the dual part of the sine is [x.dual] times the
    real part of the cosine, and the dual part of the cosine is [-x.dual]
    times the real part of the sine; the dual part of [x.exp()] is
    [x.dual] times its real part. *)
Theorem transcendental_derivatives (x : Dual) :
  (forall s c : Dual,
     sin libm_sin libm_cos x = Ok s -> cos libm_sin libm_cos x = Ok c ->
     py_mul (dual x) (real c) = Ok (dual s) /\
     py_mul (py_neg (dual x)) (real s) = Ok (dual c)) /\
  (forall y : Dual,
     exp libm_exp x = Ok y -> py_mul (dual x) (real y) = Ok (dual y)).
Proof.
  split.
  - intros s c Hs Hc. unfold sin in Hs. unfold cos in Hc.
    destruct (math_sin libm_sin (real x)) as [sv | |];
      cbn [mbind result_bind] in Hs; try discriminate Hs.
    destruct (math_cos libm_cos (real x)) as [cv | |];
      cbn [mbind result_bind] in Hs, Hc; try discriminate Hs.
    ok_step Hs. ok_step Hc.
    injection Hs as <-. injection Hc as <-. now split.
  - intros y Hy. unfold exp in Hy.
    destruct (math_exp libm_exp (real x)) as [r | |];
      cbn [mbind result_bind] in Hy; try discriminate Hy.
    ok_step Hy. now injection Hy as <-.
Qed.

(** [0 - c] and [c] have the same absolute value. *)
Lemma float_abs_zero_sub (c : float) : abs (0 - c) = abs c.
Proof.
  apply Prim2SF_inj.
  rewrite !FloatAxioms.abs_spec, FloatAxioms.sub_spec, Prim2SF_zero.
  now destruct (Prim2SF c) as [[] | [] | | [] m e].
Qed.

(** A float within [1e-9] of zero is close to [0]. *)
Lemma isclose_zero (c : float) :
  (abs c <=? float_1e_9)%float = true ->
  isclose c 0 float_1e_9 float_1e_9 = Ok true.
Proof.
  intros H. unfold isclose.
  change (float_1e_9 <? 0)%float with false. cbn [orb].
  destruct (c =? 0)%float; [reflexivity |].
  change (is_infinity 0) with false. rewrite orb_false_r.
  destruct (is_infinity c) eqn:Hinf.
  - exfalso. unfold is_infinity in Hinf.
    rewrite FloatAxioms.eqb_spec in Hinf. rewrite FloatAxioms.leb_spec in H.
    rewrite Prim2SF_infinity in Hinf.
    destruct (Prim2SF (abs c)) as [[] | [] | | [] m e]; try discriminate Hinf.
    vm_compute in H. discriminate H.
  - now rewrite float_abs_zero_sub, H, orb_true_r.
Qed.

(** The tolerances of [tan] are not negative: the test has a truth
    value. *)
Lemma isclose_tolerances (c : float) :
  exists b, isclose c 0 float_1e_9 float_1e_9 = Ok b.
Proof.
  unfold isclose.
  change (float_1e_9 <? 0)%float with false. cbn [orb].
  destruct (c =? 0)%float; [eauto |].
  destruct (is_infinity c || is_infinity 0); eauto.
Qed.

(** [tan] raises [ZeroDivisionError] whenever the cosine [c] of the real
    part is within [1e-9] of zero, although the tangent has a value at
    every float: no float is an odd multiple of pi/2.  When it raises
    [ZeroDivisionError], the test on the cosine did it, or the square of
    the cosine evaluated to a zero. *)
Theorem tan_guard (x : Dual) (c : float) :
  math_cos libm_cos (real x) = Ok c ->
  ((abs c <=? float_1e_9)%float = true ->
   tan libm_pow libm_cos libm_tan x = Raise ZeroDivisionError) /\
  (tan libm_pow libm_cos libm_tan x = Raise ZeroDivisionError ->
   isclose c 0 float_1e_9 float_1e_9 = Ok true \/
   exists sq, py_pow libm_pow (SFloat c) (SInt 2) = Ok sq /\
              py_eq sq (SInt 0) = true).
Proof.
  intros Hc. unfold tan. rewrite Hc. cbn [mbind result_bind]. split.
  - intros Hclose. now rewrite (isclose_zero c Hclose).
  - intros H.
    destruct (isclose_tolerances c) as [[] Hb]; rewrite Hb in H |- *;
      cbn [mbind result_bind] in H; [now left | right].
    destruct (math_1_outcome libm_tan false (real x)) as [[t Ht] | [Ht | Ht]];
      unfold math_tan in H; rewrite Ht in H; cbn [mbind result_bind] in H;
      try discriminate H.
    zde_step H; [| now apply (py_pow_two_not_ZDE (SFloat c))].
    match type of H with
    | context [mbind _ ?m] =>
        destruct m as [? | ? |] eqn:Eq; cbn [mbind result_bind] in H;
        [| injection H as -> | discriminate H]
    end.
    + zde_step H; [discriminate H |].
      eapply py_mul_not_ZDE; eassumption.
    + eexists. split; [reflexivity |].
      rewrite py_eq_zero. eapply py_truediv_ZDE. eassumption.
Qed.

(** [sin], [cos] and [exp] raise nothing but [ValueError] and
    [OverflowError]; [tan] raises these and [ZeroDivisionError]. *)
Theorem transcendental_exceptions (x : Dual) (e : exn) :
  (sin libm_sin libm_cos x = Raise e \/ cos libm_sin libm_cos x = Raise e \/
   exp libm_exp x = Raise e ->
   e = ValueError \/ e = OverflowError) /\
  (tan libm_pow libm_cos libm_tan x = Raise e ->
   e = ZeroDivisionError \/ e = ValueError \/ e = OverflowError).
Proof.
  assert (Hmul : forall u v, py_mul u v = Raise e -> e = ValueError \/ e = OverflowError).
  { intros u v H. destruct (py_mul_outcome u v) as [[r Hr] | Hr];
      rewrite Hr in H; [discriminate H | injection H as <-; auto]. }
  assert (Hmath : forall func ov s, math_1 func ov s = Raise e ->
                    e = ValueError \/ e = OverflowError).
  { intros func ov s H.
    destruct (math_1_outcome func ov s) as [[r Hr] | [Hr | Hr]];
      rewrite Hr in H; [discriminate H | |]; injection H as <-; auto. }
  split.
  - intros [H | [H | H]].
    + unfold sin, math_sin, math_cos in H.
      destruct (math_1 libm_sin false (real x)) eqn:E1; cbn [mbind result_bind] in H;
        [| injection H as ->; eauto | discriminate H].
      destruct (math_1 libm_cos false (real x)) eqn:E2; cbn [mbind result_bind] in H;
        [| injection H as ->; eauto | discriminate H].
      destruct (py_mul (dual x) (SFloat a0)) eqn:E3; cbn [mbind result_bind] in H;
        [discriminate H | injection H as ->; eauto | discriminate H].
    + unfold cos, math_sin, math_cos in H.
      destruct (math_1 libm_cos false (real x)) eqn:E1; cbn [mbind result_bind] in H;
        [| injection H as ->; eauto | discriminate H].
      destruct (math_1 libm_sin false (real x)) eqn:E2; cbn [mbind result_bind] in H;
        [| injection H as ->; eauto | discriminate H].
      destruct (py_mul (py_neg (dual x)) (SFloat a0)) eqn:E3;
        cbn [mbind result_bind] in H;
        [discriminate H | injection H as ->; eauto | discriminate H].
    + unfold exp, math_exp in H.
      destruct (math_1 libm_exp true (real x)) eqn:E1; cbn [mbind result_bind] in H;
        [| injection H as ->; eauto | discriminate H].
      destruct (py_mul (dual x) (SFloat a)) eqn:E3; cbn [mbind result_bind] in H;
        [discriminate H | injection H as ->; eauto | discriminate H].
  - intros H. unfold tan, math_cos, math_tan in H.
    destruct (math_1 libm_cos false (real x)) as [c | |] eqn:E1;
      cbn [mbind result_bind] in H;
      [| injection H as ->; right; eauto | discriminate H].
    destruct (isclose_tolerances c) as [[] Hb]; rewrite Hb in H;
      cbn [mbind result_bind] in H; [injection H as <-; auto |].
    destruct (math_1 libm_tan false (real x)) eqn:E2; cbn [mbind result_bind] in H;
      [| injection H as ->; right; eauto | discriminate H].
    destruct (py_pow libm_pow (SFloat c) (SInt 2)) as [sq | e' |] eqn:E3;
      cbn [mbind result_bind] in H; [| | discriminate H].
    + destruct (py_truediv (SInt 1) sq) as [q | e' |] eqn:E4;
        cbn [mbind result_bind] in H; [| | discriminate H].
      * destruct (py_mul (dual x) q) eqn:E5; cbn [mbind result_bind] in H;
          [discriminate H | injection H as ->; right; eauto | discriminate H].
      * injection H as ->.
        destruct (py_truediv_outcome (SInt 1) sq) as [[r Hr] | [Hr | Hr]];
          rewrite Hr in E4; [discriminate E4 | |]; injection E4 as <-; auto.
    + injection H as ->. right. right.
      rewrite py_pow_float_two, float_pow_two in E3.
      repeat match type of E3 with
             | (if ?b then _ else _) = _ => destruct b
             | (let _ := _ in _) = _ => cbv zeta in E3
             end; try discriminate E3; now injection E3.
Qed.

(** ** Negation *)





(** ** The exponent of [pow] *)

(** [pow] raises [TypeError] exactly when its argument is not an int: no
    int exponent gives a [TypeError], every float and every dual number
    does. *)
Theorem pow_type_error (x : Dual) (v : value) :
  pow libm_pow x v = Raise TypeError <-> (forall z : Z, v <> VNum (SInt z)).
Proof.
  split.
  - intros H z ->. unfold pow in H.
    destruct (py_eq (real x) (SInt 0) && py_lt (SInt z) (SInt 0));
      [discriminate H |].
    destruct (py_pow libm_pow (real x) (SInt z)) eqn:E1;
      cbn [mbind result_bind py_sub] in H;
      [| injection H as ->; now apply py_pow_not_TypeError in E1 | discriminate H].
    destruct (py_pow libm_pow (real x) (SInt (z - 1))) eqn:E2;
      cbn [mbind result_bind] in H;
      [| injection H as ->; now apply py_pow_not_TypeError in E2 | discriminate H].
    destruct (py_mul (SInt z) a0) eqn:E3; cbn [mbind result_bind] in H;
      [| injection H as ->; now apply py_mul_not_TypeError in E3 | discriminate H].
    destruct (py_mul a1 (dual x)) eqn:E4; cbn [mbind result_bind] in H;
      [discriminate H | injection H as ->; now apply py_mul_not_TypeError in E4
       | discriminate H].
  - intros H. destruct v as [[z | g] | d]; try reflexivity.
    now destruct (H z).
Qed.

(** ** In-place multiplication on an error *)

(** [x *= y] with a dual number [y] assigns after both products are
    computed: whatever it raises, the store is as it was.  [x *= s] with a
    number [s] assigns the real part before it computes the dual part:
    when the second product raises, the real part has already been
    overwritten. *)
Theorem imul_store_on_error (h : heap) (self : loc) (other : arg) (x : Dual) (v : value) :
  h !! self = Some x -> fetch h other = Some v ->
  (forall y e h', v = VDual y ->
     __imul__ self other h = (Raise e, h') -> h' = h) /\
  (forall s r e, v = VNum s ->
     py_mul (real x) s = Ok r -> py_mul (dual x) s = Raise e ->
     __imul__ self other h = (Raise e, <[self := mkDual r (dual x)]> h)).
Proof.
  intros Hx Hv. split.
  - intros y e h' ->. destruct other as [s | o]; [discriminate Hv |].
    apply fetch_ref in Hv as (y' & Hy & [= <-]).
    unfold __imul__.
    do 2 run_attr. run_op; [| now intros [= _ <-] | discriminate].
    do 2 run_attr. run_op; [| now intros [= _ <-] | discriminate].
    do 2 run_attr. run_op; [| now intros [= _ <-] | discriminate].
    run_op; [| now intros [= _ <-] | discriminate].
    do 2 run_attr. discriminate.
  - intros s r e -> Hr He. destruct other as [s' | o];
      [| now apply fetch_ref in Hv as (y & _ & [=])].
    injection Hv as ->. unfold __imul__.
    run_attr. rewrite run_eval, Hr. do 2 run_attr. cbn [dual].
    now rewrite run_eval, He.
Qed.

(** ** Reflected division *)

(** [s / x] raises [ZeroDivisionError] whenever the real part of [x] is
    zero, whatever [s] is.  When it raises that error, the real part is
    zero or its square evaluated to a zero; with an int real part, exactly
    when that int is 0. *)
Theorem rtruediv_zero_division (x : Dual) (s : scalar) :
  (py_eq (real x) (SInt 0) = true ->
   binop_truediv libm_pow (VNum s) (VDual x) = Raise ZeroDivisionError) /\
  (binop_truediv libm_pow (VNum s) (VDual x) = Raise ZeroDivisionError ->
   py_eq (real x) (SInt 0) = true \/
   exists sq, py_pow libm_pow (real x) (SInt 2) = Ok sq /\ py_eq sq (SInt 0) = true) /\
  (forall z : Z, real x = SInt z ->
   (binop_truediv libm_pow (VNum s) (VDual x) = Raise ZeroDivisionError <-> z = 0)).
Proof.
  assert (Hzero : py_eq (real x) (SInt 0) = true ->
            binop_truediv libm_pow (VNum s) (VDual x) = Raise ZeroDivisionError).
  { intros Hz. unfold binop_truediv, __rtruediv__. now rewrite Hz. }
  assert (Hraise : binop_truediv libm_pow (VNum s) (VDual x) = Raise ZeroDivisionError ->
            py_eq (real x) (SInt 0) = true \/
            exists sq, py_pow libm_pow (real x) (SInt 2) = Ok sq /\
                       py_eq sq (SInt 0) = true).
  { unfold binop_truediv, __rtruediv__. intros H.
    destruct (py_eq (real x) (SInt 0)) eqn:Hz; [now left | right].
    destruct (py_truediv s (real x)) as [r | e |] eqn:E1;
      cbn [mbind result_bind fmap result_fmap] in H;
      [| injection H as ->;
         now destruct (py_truediv_nonzero_not_ZDE s (real x) Hz)
       | discriminate H].
    destruct (py_mul (py_neg s) (dual x)) as [t | e |] eqn:E2;
      cbn [mbind result_bind fmap result_fmap] in H;
      [| injection H as ->; now destruct (py_mul_not_ZDE (py_neg s) (dual x))
       | discriminate H].
    destruct (py_pow libm_pow (real x) (SInt 2)) as [sq | e |] eqn:E3;
      cbn [mbind result_bind fmap result_fmap] in H;
      [| injection H as ->; now destruct (py_pow_two_not_ZDE (real x))
       | discriminate H].
    destruct (py_truediv t sq) as [d | e |] eqn:E4;
      cbn [mbind result_bind fmap result_fmap] in H;
      [discriminate H | injection H as -> | discriminate H].
    exists sq. split; [reflexivity |].
    rewrite py_eq_zero. now apply (py_truediv_ZDE t sq). }
  split; [exact Hzero | split; [exact Hraise |]].
  intros z Hx. split.
  - intros H. apply Hraise in H. rewrite Hx in H.
    destruct H as [H | (sq & Hsq & H)].
    + now apply Z.eqb_eq in H.
    + rewrite py_pow_int_two in Hsq. injection Hsq as <-.
      apply Z.eqb_eq in H. nia.
  - intros ->. apply Hzero. now rewrite Hx.
Qed.

(** ** The real part is the plain value *)

(** Carrying the dual part does not change the value: when a product, a
    quotient, a power or a tangent of dual numbers has a value, its real
    part is what the same operation gives on the real parts alone. *)
Theorem real_part_is_primal (x y r : Dual) :
  (__mul__ x (VDual y) = Ok r -> py_mul (real x) (real y) = Ok (real r)) /\
  (__truediv__ libm_pow x (VDual y) = Ok r ->
   py_truediv (real x) (real y) = Ok (real r)) /\
  (forall n : Z, pow libm_pow x (VNum (SInt n)) = Ok r ->
   py_pow libm_pow (real x) (SInt n) = Ok (real r)) /\
  (tan libm_pow libm_cos libm_tan x = Ok r ->
   SFloat <$> math_tan libm_tan (real x) = Ok (real r)).
Proof.
  split; [| split; [| split]].
  - intros H. unfold __mul__ in H. do 4 ok_step H. now injection H as <-.
  - intros H. unfold __truediv__ in H.
    destruct (py_eq (real y) (SInt 0)); [discriminate H |].
    do 6 ok_step H. now injection H as <-.
  - intros n H. unfold pow in H.
    destruct (py_eq (real x) (SInt 0) && py_lt (SInt n) (SInt 0));
      [discriminate H |].
    do 5 ok_step H. now injection H as <-.
  - intros H. unfold tan in H. ok_step H. ok_step H.
    match type of H with
    | (if ?b then _ else _) = _ => destruct b; [discriminate H |]
    end.
    repeat ok_step H. now injection H as <-.
Qed.

(** ** An int and the float of its value are equal *)





(** ** Range and domain errors *)

Lemma is_infinity_not_nan (a : float) : is_infinity a = true -> is_nan a = false.
Proof.
  unfold is_infinity, is_nan.
  rewrite !FloatAxioms.eqb_spec, FloatAxioms.abs_spec, Prim2SF_infinity.
  now destruct (Prim2SF a) as [[] | [] | | [] m e].
Qed.

Lemma math_1_domain_error func ov (a : float) :
  is_infinity a = true -> is_nan (fst (func a)) = true ->
  math_1 func ov (SFloat a) = Raise ValueError.
Proof.
  intros Ha Hr. unfold math_1. cbn [to_float mbind result_bind].
  destruct (func a) as [r errno]. cbn [fst] in Hr.
  now rewrite Hr, (is_infinity_not_nan a Ha).
Qed.

(** Where the C library answers an infinite argument with a NaN, as C
    requires of [sin], [cos] and [tan], a dual number with an infinite
    real part has no sine, cosine or tangent: each raises [ValueError],
    [tan] before its test for a zero cosine.  Where the C library's [exp]
    overflows on a finite real part, [exp] raises [OverflowError]. *)
Theorem transcendental_range_errors (a : float) (b : scalar) :
  (is_infinity a = true -> is_nan (fst (libm_sin a)) = true ->
   sin libm_sin libm_cos (mkDual (SFloat a) b) = Raise ValueError) /\
  (is_infinity a = true -> is_nan (fst (libm_cos a)) = true ->
   cos libm_sin libm_cos (mkDual (SFloat a) b) = Raise ValueError /\
   tan libm_pow libm_cos libm_tan (mkDual (SFloat a) b) = Raise ValueError) /\
  (is_finite a = true -> is_infinity (fst (libm_exp a)) = true ->
   exp libm_exp (mkDual (SFloat a) b) = Raise OverflowError).
Proof.
  split; [| split].
  - intros Ha Hr. unfold sin, math_sin. cbn [real].
    now rewrite (math_1_domain_error libm_sin false a Ha Hr).
  - intros Ha Hr. unfold cos, tan, math_cos. cbn [real].
    now rewrite (math_1_domain_error libm_cos false a Ha Hr).
  - intros Ha Hr. unfold exp, math_exp, math_1. cbn [real to_float mbind result_bind].
    destruct (libm_exp a) as [r errno]. cbn [fst] in Hr.
    rewrite (is_infinity_not_nan r Hr), Hr, Ha. reflexivity.
Qed.

(** ** The in-place operators write the receiver alone *)

Lemma only_writes_ret {A} (self : loc) (a : A) : only_writes self (retM a).
Proof. now intros h l _. Qed.

Lemma only_writes_eval {A} (self : loc) (r : result A) : only_writes self (eval r).
Proof. now intros h l _. Qed.

Lemma only_writes_get_real (self l' : loc) : only_writes self (get_real l').
Proof. intros h l _. unfold get_real. now destruct (h !! l'). Qed.

Lemma only_writes_get_dual (self l' : loc) : only_writes self (get_dual l').
Proof. intros h l _. unfold get_dual. now destruct (h !! l'). Qed.

Lemma only_writes_set_real (self : loc) (v : scalar) :
  only_writes self (set_real self v).
Proof.
  intros h l Hl. unfold set_real.
  destruct (h !! self); [| reflexivity].
  cbn [snd]. now rewrite lookup_insert_ne.
Qed.

Lemma only_writes_set_dual (self : loc) (v : scalar) :
  only_writes self (set_dual self v).
Proof.
  intros h l Hl. unfold set_dual.
  destruct (h !! self); [| reflexivity].
  cbn [snd]. now rewrite lookup_insert_ne.
Qed.

Lemma only_writes_bind {A B} (self : loc) (m : M A) (k : A -> M B) :
  only_writes self m -> (forall a, only_writes self (k a)) ->
  only_writes self (bindM m k).
Proof.
  intros Hm Hk h l Hl. unfold bindM.
  specialize (Hm h l Hl).
  destruct (m h) as [[a | e |] h']; cbn [snd] in *; try assumption.
  now rewrite (Hk a h' l Hl).
Qed.

(** Goes through the statements of a method body. *)
Ltac frame_step :=
  first
    [ apply only_writes_bind; [| intros ?]
    | apply only_writes_get_real
    | apply only_writes_get_dual
    | apply only_writes_set_real
    | apply only_writes_set_dual
    | apply only_writes_eval
    | apply only_writes_ret
    | match goal with
      | |- only_writes _ (if ?b then _ else _) => destruct b
      end ].

(** [x += y], [x -= y], [x *= y] and [x /= y] assign to no object but [x]:
    whatever the outcome, a value or an exception after some assignment,
    every other dual number has the fields it had; an argument [y] other
    than [x] is left as it was. *)
Theorem inplace_frame (self : loc) (other : arg) (h : heap) (l : loc) :
  l <> self ->
  (__iadd__ self other h).2 !! l = h !! l /\
  (__isub__ self other h).2 !! l = h !! l /\
  (__imul__ self other h).2 !! l = h !! l /\
  (__itruediv__ libm_pow self other h).2 !! l = h !! l.
Proof.
  intros Hl.
  assert (Hadd : only_writes self (__iadd__ self other))
    by (unfold __iadd__; destruct other; repeat frame_step).
  assert (Hsub : only_writes self (__isub__ self other))
    by (unfold __isub__; destruct other; repeat frame_step).
  assert (Hmul : only_writes self (__imul__ self other))
    by (unfold __imul__; destruct other; repeat frame_step).
  assert (Hdiv : only_writes self (__itruediv__ libm_pow self other))
    by (unfold __itruediv__; destruct other; repeat frame_step).
  repeat split; [apply Hadd | apply Hsub | apply Hmul | apply Hdiv]; exact Hl.
Qed.

End Properties.

(** * Runs on concrete inputs

    The C library's [pow] is [pow_integral] here: all exponents below are
    integral. *)

(** C3, the claim as stated fails: the divisor [Dual(2.0**-600, 0.0)] has a
    non-zero real part, yet [Dual(1.0, 1.0)] divided by it raises
    [ZeroDivisionError], because the square of [2.0**-600] underflows to
    [0.0] and Python's float division raises on a zero divisor. *)
Lemma truediv_tiny_divisor_raises :
  py_eq (SFloat 0x1p-600) (SInt 0) = false /\
  __truediv__ pow_integral (mkDual (SFloat 1) (SFloat 1))
    (VDual (mkDual (SFloat 0x1p-600) (SFloat 0))) = Raise ZeroDivisionError.
Proof. split; reflexivity. Qed.

(** [Dual(1, 1) / Dual(2, 3)] is [Dual(0.5, -0.25)]. *)
Lemma truediv_dual_spec_witness :
  __truediv__ pow_integral (mkDual (SInt 1) (SInt 1)) (VDual (mkDual (SInt 2) (SInt 3))) =
  Ok (mkDual (SFloat 0.5) (SFloat (-0.25))).
Proof.
  destruct (truediv_dual_spec pow_integral (mkDual (SInt 1) (SInt 1))
              (mkDual (SInt 2) (SInt 3))) as (_ & Hrule & _).
  rewrite Hrule; reflexivity.
Defined.

(** C7, the claim as stated fails: [Dual(2.0**-600, 1.0)] has a non-zero
    real part and no inverse is returned; [inverse] raises
    [ZeroDivisionError] (and so does [1 / x]). *)
Lemma inverse_tiny_real_raises :
  py_eq (SFloat 0x1p-600) (SInt 0) = false /\
  inverse pow_integral (mkDual (SFloat 0x1p-600) (SFloat 1)) = Raise ZeroDivisionError /\
  binop_truediv pow_integral (VNum (SInt 1))
    (VDual (mkDual (SFloat 0x1p-600) (SFloat 1))) = Raise ZeroDivisionError.
Proof. repeat split; reflexivity. Qed.

(** [Dual(2.0, 1.0).inverse()] is [Dual(0.5, -0.25)]. *)
Lemma inverse_spec_witness :
  inverse pow_integral (mkDual (SFloat 2) (SFloat 1)) =
  Ok (mkDual (SFloat 0.5) (SFloat (-0.25))).
Proof.
  destruct (inverse_spec pow_integral (mkDual (SFloat 2) (SFloat 1)))
    as (_ & _ & _ & Hfloat & _).
  apply (Hfloat 2%float 1%float 4%float); reflexivity.
Defined.

(** C8, the claim as stated fails: whatever [math.log] is,
    [Dual(0,1).log()] raises [ZeroDivisionError], the very exception that
    [Dual(1,0) / Dual(0,1)] raises; the code has no error category of its
    own for the logarithm's domain. *)
Lemma log_of_zero_raises_ZeroDivisionError :
  (fun math_log => log math_log (mkDual (SInt 0) (SInt 1))) =
    (fun _ => Raise ZeroDivisionError) /\
  (fun libm_pow =>
     __truediv__ libm_pow (mkDual (SInt 1) (SInt 0)) (VDual (mkDual (SInt 0) (SInt 1)))) =
    (fun _ => Raise ZeroDivisionError).
Proof. split; reflexivity. Qed.

(** [Dual(0, 1).pow(0)] raises [ZeroDivisionError]. *)
Lemma pow_zero_base_raises_witness :
  pow pow_integral (mkDual (SInt 0) (SInt 1)) (VNum (SInt 0)) = Raise ZeroDivisionError.
Proof.
  apply (pow_zero_base_raises pow_integral (mkDual (SInt 0) (SInt 1)) 0);
    [reflexivity | lia].
Defined.

(** [Dual(0.0, 1).pow(0)] raises [ZeroDivisionError]: its real part is
    zero and its exponent is not positive. *)
Lemma pow_raises_only_zero_base_witness :
  py_eq (real (mkDual (SFloat 0) (SInt 1))) (SInt 0) = true /\ 0 <= 0.
Proof.
  apply (pow_raises_only_zero_base pow_integral (mkDual (SFloat 0) (SInt 1)) 0).
  reflexivity.
Defined.

(** [x *= x] and [x /= x] on [x = Dual(2, 1)]: the argument is the receiver
    itself, and both fields come from the values before the assignment. *)
Lemma inplace_agrees_witness :
  __imul__ 1%positive (ARef 1%positive) store_xy =
    (Ok (ARef 1%positive), <[1%positive := mkDual (SInt 4) (SInt 4)]> store_xy) /\
  __itruediv__ pow_integral 1%positive (ARef 1%positive) store_xy =
    (Ok (ARef 1%positive), <[1%positive := mkDual (SFloat 1) (SFloat 0)]> store_xy).
Proof.
  destruct (inplace_agrees pow_integral store_xy 1%positive (ARef 1%positive)
              (mkDual (SInt 2) (SInt 1)) (VDual (mkDual (SInt 2) (SInt 1)))
              eq_refl eq_refl) as [[_ Hmul] [[_ Hdiv] _]].
  split; [apply Hmul | apply Hdiv]; reflexivity.
Defined.

(** [x /= Dual(0, 1)] raises and leaves the store as it was. *)
Lemma itruediv_atomic_witness :
  __itruediv__ pow_integral 1%positive (ARef 2%positive)
    (<[2%positive := mkDual (SInt 0) (SInt 1)]> store_xy) =
  (Raise ZeroDivisionError, <[2%positive := mkDual (SInt 0) (SInt 1)]> store_xy).
Proof.
  destruct (itruediv_atomic pow_integral
              (<[2%positive := mkDual (SInt 0) (SInt 1)]> store_xy)
              1%positive (ARef 2%positive)) as (Hdual & _ & _).
  apply (Hdual (mkDual (SInt 0) (SInt 1))); reflexivity.
Defined.

(** The float exponent [2.0] is accepted by [**=]: [x = Dual(3.0, 1.0)]
    becomes [Dual(9.0, 6.0)]. *)
Example ipow_float_two :
  __ipow__ pow_integral 1%positive (ANum (SFloat 2))
    {[ 1%positive := mkDual (SFloat 3) (SFloat 1) ]} =
  (Ok (ARef 1%positive), {[ 1%positive := mkDual (SFloat 9) (SFloat 6) ]}).
Proof. reflexivity. Qed.

(** The atomicity of [/=] is that of its [ZeroDivisionError]: with the
    number [2] as divisor and [x = Dual(2, 10**400)], the real part is
    assigned before the dual part's quotient overflows. *)
Example itruediv_overflow_after_assignment :
  __itruediv__ pow_integral 1%positive (ANum (SInt 2))
    {[ 1%positive := mkDual (SInt 2) (SInt (10 ^ 400)) ]} =
  (Raise OverflowError, {[ 1%positive := mkDual (SFloat 1) (SInt (10 ^ 400)) ]}).
Proof. vm_compute. reflexivity. Qed.

(** [x /= 10**400] on [x = Dual(1.0, 1.0)]: the divisor does not convert to
    a float, [OverflowError] is raised and [x] is as it was. *)
Lemma itruediv_float_receiver_atomic_witness :
  snd (__itruediv__ pow_integral 1%positive (ANum (SInt (10 ^ 400)))
         {[ 1%positive := mkDual (SFloat 1) (SFloat 1) ]}) =
  {[ 1%positive := mkDual (SFloat 1) (SFloat 1) ]}.
Proof.
  apply (itruediv_float_receiver_atomic pow_integral
           {[ 1%positive := mkDual (SFloat 1) (SFloat 1) ]} _
           1%positive (ANum (SInt (10 ^ 400))) 1%float 1%float OverflowError).
  - reflexivity.
  - vm_compute. reflexivity.
Defined.

(** [x += x] on [x = Dual(2, 1)] leaves [Dual(4, 2)]. *)
Lemma iadd_agrees_witness :
  __iadd__ 1%positive (ARef 1%positive) store_xy =
  (Ok (ARef 1%positive), <[1%positive := mkDual (SInt 4) (SInt 2)]> store_xy).
Proof.
  apply (iadd_agrees store_xy 1%positive (ARef 1%positive)
           (mkDual (SInt 2) (SInt 1)) (mkDual (SInt 4) (SInt 2))
           (VDual (mkDual (SInt 2) (SInt 1)))); reflexivity.
Defined.

(** [Dual(2.0, 1.0).pow(3)] is [Dual(8.0, 12.0)]; squaring a dual number
    whose real part is [2.0**700] overflows. *)
Example pow_float_runs :
  pow pow_integral (mkDual (SFloat 2) (SFloat 1)) (VNum (SInt 3)) =
    Ok (mkDual (SFloat 8) (SFloat 12)) /\
  pow pow_integral (mkDual (SFloat 0x1p700) (SFloat 1)) (VNum (SInt 2)) =
    Raise OverflowError.
Proof. split; reflexivity. Qed.

(** [Dual(2, 1).pow(3)] is [Dual(2, 1).pow(2) * Dual(2, 1)]. *)
Lemma pow_succ_int_witness :
  pow pow_integral (mkDual (SInt 2) (SInt 1)) (VNum (SInt 1)) =
    Ok (mkDual (SInt 2) (SInt 1)) /\
  pow pow_integral (mkDual (SInt 2) (SInt 1)) (VNum (SInt (2 + 1))) =
    (p ← pow pow_integral (mkDual (SInt 2) (SInt 1)) (VNum (SInt 2));
     __mul__ p (VDual (mkDual (SInt 2) (SInt 1)))).
Proof.
  apply (pow_succ_int pow_integral 2 1 2). lia.
Defined.

(** [x -= y] with [x = Dual(1.0, 2**1024)] and [y = Dual(1.0, 1.0)]: the
    dual parts' difference is out of the floats' range, and [x] is left
    with the new real part and the old dual part. *)
Lemma isub_outcome_witness :
  __isub__ 1%positive (ARef 2%positive)
    {[ 1%positive := mkDual (SFloat 1) (SInt (2 ^ 1024));
       2%positive := mkDual (SFloat 1) (SFloat 1) ]} =
  (Raise OverflowError,
   <[ 1%positive := mkDual (SFloat 0) (SInt (2 ^ 1024)) ]>
     {[ 1%positive := mkDual (SFloat 1) (SInt (2 ^ 1024));
        2%positive := mkDual (SFloat 1) (SFloat 1) ]}).
Proof.
  refine (proj2 (proj2
    (isub_outcome _ 1%positive (ARef 2%positive)
       (mkDual (SFloat 1) (SInt (2 ^ 1024)))
       (VDual (mkDual (SFloat 1) (SFloat 1))) _ _))
    (mkDual (SFloat 1) (SFloat 1)) (SFloat 0) OverflowError _ _ _);
    reflexivity.
Defined.




(** [x *= 2.0] with [x = Dual(1.5, 2**1024)]: the real part is assigned,
    then the product of the dual part is out of the floats' range. *)
Lemma imul_store_on_error_witness :
  __imul__ 1%positive (ANum (SFloat 2))
    {[ 1%positive := mkDual (SFloat 1.5) (SInt (2 ^ 1024)) ]} =
  (Raise OverflowError,
   <[ 1%positive := mkDual (SFloat 3) (SInt (2 ^ 1024)) ]>
     {[ 1%positive := mkDual (SFloat 1.5) (SInt (2 ^ 1024)) ]}).
Proof.
  refine (proj2
    (imul_store_on_error _ 1%positive (ANum (SFloat 2))
       (mkDual (SFloat 1.5) (SInt (2 ^ 1024))) (VNum (SFloat 2)) _ _)
    (SFloat 2) (SFloat 3) OverflowError _ _ _); reflexivity.
Defined.

(** With a C library whose cosine at the float nearest pi/2 is the
    correctly rounded [6.1e-17], [Dual(pi/2, 1).tan()] raises
    [ZeroDivisionError]. *)
Lemma tan_guard_witness :
  tan pow_integral cos_at_half_pi odd_at_zero
    (mkDual (SFloat 0x1.921fb54442d18p+0) (SFloat 1)) = Raise ZeroDivisionError.
Proof.
  refine (proj1
    (tan_guard pow_integral cos_at_half_pi odd_at_zero
       (mkDual (SFloat 0x1.921fb54442d18p+0) (SFloat 1))
       0x1.1a62633145c07p-54%float _) _); reflexivity.
Defined.

(** At zero, where C fixes the functions: [Dual(0.0, 1.0).sin()] is
    [Dual(0.0, 1.0)], [.cos()] is [Dual(1.0, -0.0)], [.exp()] is
    [Dual(1.0, 1.0)] and [.tan()] is [Dual(0.0, 1.0)]. *)
Example transcendental_at_zero :
  sin odd_at_zero one_at_zero (mkDual (SFloat 0) (SFloat 1)) =
    Ok (mkDual (SFloat 0) (SFloat 1)) /\
  cos odd_at_zero one_at_zero (mkDual (SFloat 0) (SFloat 1)) =
    Ok (mkDual (SFloat 1) (SFloat (-0))) /\
  exp one_at_zero (mkDual (SFloat 0) (SFloat 1)) =
    Ok (mkDual (SFloat 1) (SFloat 1)) /\
  tan pow_integral one_at_zero odd_at_zero (mkDual (SFloat 0) (SFloat 1)) =
    Ok (mkDual (SFloat 0) (SFloat 1)).
Proof. repeat split; reflexivity. Qed.


(** With a sine and a cosine that are NaN at infinity,
    [Dual(inf, 1.0).sin()], [.cos()] and [.tan()] raise [ValueError]; with
    an exponential that is infinite at 1000.0, [Dual(1000.0, 1.0).exp()]
    raises [OverflowError]. *)
Example transcendental_range_errors_run :
  sin odd_at_zero one_at_zero (mkDual (SFloat infinity) (SFloat 1)) = Raise ValueError /\
  cos odd_at_zero one_at_zero (mkDual (SFloat infinity) (SFloat 1)) = Raise ValueError /\
  tan pow_integral one_at_zero odd_at_zero (mkDual (SFloat infinity) (SFloat 1)) =
    Raise ValueError /\
  exp (fun _ => (infinity, ERANGE)) (mkDual (SFloat 1000) (SFloat 1)) =
    Raise OverflowError.
Proof. repeat split; reflexivity. Qed.

(** [x /= y] in the store of the examples leaves [y = Dual(3, 2)] as it
    was, and so do [x += y], [x -= y] and [x *= y]. *)
Lemma inplace_frame_witness :
  (__iadd__ 1%positive (ARef 2%positive) store_xy).2 !! 2%positive =
    store_xy !! 2%positive /\
  (__isub__ 1%positive (ARef 2%positive) store_xy).2 !! 2%positive =
    store_xy !! 2%positive /\
  (__imul__ 1%positive (ARef 2%positive) store_xy).2 !! 2%positive =
    store_xy !! 2%positive /\
  (__itruediv__ pow_integral 1%positive (ARef 2%positive) store_xy).2 !! 2%positive =
    store_xy !! 2%positive.
Proof.
  apply (inplace_frame pow_integral 1%positive (ARef 2%positive) store_xy 2%positive).
  discriminate.
Defined.
